(** * Fish landings and dissolved oxygen: the analysis engine

    A shallow embedding of [DataAnalyzer.py] together with the two record
    classes it consumes ([FishLandings.py], [PollutionRecords.py]).

    Python values are modelled as the interpreter has them:
    - [int] is an unbounded integer, here [Z];
    - [float] is an IEEE 754 binary64 number, here [spec_float] at
      precision 53 and maximal exponent 1024, with the operations of
      [SpecFloat] (round to nearest, ties to even);
    - [dict] is a finite map ([gmap]), [set] a finite set ([gset]);
    - a raised exception is the [Raise] case of [result];
    - what differs between interpreters and C libraries is a parameter:
      the builtin [sum] on floats, the builtin [round], and [pow(x, 2.0)]
      behind [x ** 2].

    Embedded are the aggregations [total_fish_landings_per_year],
    [average_fish_landings_per_year],
    [total_fish_category_landings_overall] and [average_oxygen_per_year],
    the comparisons [compare_species_between_years] and
    [compare_total_landings_between_years], the correlation
    [calc_pearson] and the summary [get_summary_stats].

    The further properties at the end of the file also cover
    [compare_oxygen_levels_between_years] and [get_joined_yearly_data] of
    [DataAnalyzer.py], [get_landings_by_year] and [get_all_fish_landings]
    of [FishLandings.py] (the reading of a spreadsheet being a parameter),
    [is_low_oxygen] and [get_oxygen_records_by_year] of
    [PollutionRecords.py], and [interpret_correlation] of [main.py] (the
    formatting of a number being a parameter). *)

From Stdlib Require Import ZArith List Lia.
From Stdlib Require Import Floats.SpecFloat.
From stdpp Require Import gmap strings list fin_maps sorting.

Local Open Scope Z_scope.

(** ** Exceptions *)

Inductive exception : Set :=
| ZeroDivisionError
| OverflowError
| ValueError
| KeyError
| IndexError.

Inductive result (A : Type) : Type :=
| Ok (a : A)
| Raise (e : exception).

Arguments Ok {A} a.
Arguments Raise {A} e.

#[global] Instance result_ret : MRet result := fun A a => Ok a.

#[global] Instance result_bind : MBind result := fun A B k r =>
  match r with
  | Ok a => k a
  | Raise e => Raise e
  end.

#[global] Instance result_fmap : FMap result := fun A B f r =>
  match r with
  | Ok a => Ok (f a)
  | Raise e => Raise e
  end.

(** ** Python numbers *)

Module Py.

Abbreviation float := spec_float.

Definition prec : Z := 53.
Definition emax : Z := 1024.

Definition fadd : float -> float -> float := SFadd prec emax.
Definition fsub : float -> float -> float := SFsub prec emax.
Definition fmul : float -> float -> float := SFmul prec emax.
Definition feqb : float -> float -> bool := SFeqb.

Definition fzero : float := S754_zero false.

(** The integer as an unrounded binary number [m * 2^0]. *)
Definition exact (z : Z) : float :=
  match z with
  | Z0 => S754_zero false
  | Zpos m => S754_finite false m 0
  | Zneg m => S754_finite true m 0
  end.

(** Magnitudes from [2^1024 - 2^970] on round to a binary64 number beyond the
    largest finite one: this is the middle between the largest finite
    float [2^1024 - 2^971] and [2^1024], and the tie goes to the even
    neighbour [2^1024]. *)
Definition overflow_threshold : Z := 2 ^ 1024 - 2 ^ 970.

(** The binary64 number nearest to the integer [z]. *)
Definition nearest (z : Z) : float := binary_normalize prec emax z 0 false.

(** [float(z)] as every mixed [int]/[float] operation applies it:
    correctly rounded, [OverflowError] when out of range. *)
Definition float_of_int (z : Z) : result float :=
  if overflow_threshold <=? Z.abs z then Raise OverflowError
  else Ok (nearest z).

(** [sys.maxsize], the largest length a list can have. *)
Definition sys_maxsize : Z := 2 ^ 63 - 1.

(** [a / b] on two [int]s: the correctly rounded quotient of the exact
    integers, [ZeroDivisionError] for [b = 0], [OverflowError] when the
    rounded quotient leaves the binary64 range. *)
Definition int_truediv (a b : Z) : result float :=
  if b =? 0 then Raise ZeroDivisionError
  else if overflow_threshold * Z.abs b <=? Z.abs a then Raise OverflowError
  else Ok (SFdiv prec emax (exact a) (exact b)).

(** [a / b] on two [float]s. *)
Definition float_truediv (a b : float) : result float :=
  if feqb b fzero then Raise ZeroDivisionError
  else Ok (SFdiv prec emax a b).

(** [a / n] for a [float] and an [int]: [n] is converted first.  The
    converted divisor is [0.0] exactly when [n] is [0], which is where the
    test for [ZeroDivisionError] is made here. *)
Definition float_truediv_int (a : float) (n : Z) : result float :=
  b ← float_of_int n;
  if n =? 0 then Raise ZeroDivisionError
  else Ok (SFdiv prec emax a b).

(** [n - y] for an [int] and a [float]. *)
Definition int_sub_float (n : Z) (y : float) : result float :=
  x ← float_of_int n; Ok (fsub x y).

(** [x * n] for a [float] and an [int]. *)
Definition float_mul_int (x : float) (n : Z) : result float :=
  y ← float_of_int n; Ok (fmul x y).

(** [x ** 2] on a [float], as [float_pow] of CPython computes it.  Zeros
    and infinities lose their sign and NaN stays; 1.0 and -1.0 give 1.0
    without a call of the C library; any other finite [x] gives the C
    library's [pow(abs(x), 2.0)], here [pow2 (abs x)], and [OverflowError]
    when that is infinite.  The C library's [pow] is not correctly rounded
    everywhere (at -2.750000000000001 its square is one unit in the last
    place below the rounded one), so it is left open. *)
Definition float_pow2 (pow2 : float -> float) (x : float) : result float :=
  match x with
  | S754_nan => Ok S754_nan
  | S754_infinity _ => Ok (S754_infinity false)
  | S754_zero _ => Ok (S754_zero false)
  | S754_finite _ m e =>
      if feqb (S754_finite false m e) (nearest 1) then Ok (nearest 1)
      else
        match pow2 (S754_finite false m e) with
        | S754_infinity _ => Raise OverflowError
        | r => Ok r
        end
  end.

(** A [pow(x, 2.0)] that rounds the exact square correctly, as the C
    library does at the squares that are evaluated below. *)
Definition rounded_square (x : float) : float := fmul x x.

(** [math.sqrt]. *)
Definition math_sqrt (x : float) : result float :=
  match x with
  | S754_infinity true | S754_finite true _ _ => Raise ValueError
  | _ => Ok (SFsqrt prec emax x)
  end.

(** [sum] over [int]s. *)
Definition sum_int (xs : list Z) : Z := fold_left Z.add xs 0.

(** [sum] over a non-empty sequence of [float]s, in the two forms the
    interpreter has had.  Both start from the [int] [0] and add the first
    item to it as [0.0 + x].  Up to CPython 3.11 the remaining items are
    added one after the other. *)
Definition sum_float_sequential (xs : list float) : float :=
  fold_left fadd xs fzero.

(** Since CPython 3.12 the remaining items go through Neumaier's
    compensated summation: the running sum [hi] and the accumulated
    rounding error [lo], which is added at the end when it is finite and
    not zero. *)
Definition cs_add (total : float * float) (x : float) : float * float :=
  let '(hi, lo) := total in
  let t := fadd hi x in
  if SFleb (SFabs x) (SFabs hi)
  then (t, fadd lo (fadd (fsub hi t) x))
  else (t, fadd lo (fadd (fsub x t) hi)).

Definition cs_to_double (total : float * float) : float :=
  match snd total with
  | S754_finite _ _ _ => fadd (fst total) (snd total)
  | _ => fst total
  end.

Definition sum_float_compensated (xs : list float) : float :=
  match xs with
  | [] => fzero
  | x :: rest => cs_to_double (fold_left cs_add rest (fadd fzero x, fzero))
  end.

(** [d[k]] *)
Definition getitem `{Countable K} {V} (d : gmap K V) (k : K) : result V :=
  match d !! k with
  | Some v => Ok v
  | None => Raise KeyError
  end.

(** [xs[i]] for an index [i] produced by [range]. *)
Definition getindex {A} (xs : list A) (i : nat) : result A :=
  match xs !! i with
  | Some x => Ok x
  | None => Raise IndexError
  end.

(** [sorted(s)] for a set of [int]s. *)
Definition sorted_set (s : gset Z) : list Z := merge_sort Z.le (elements s).

(** [sorted(xs)] for a list of [int]s. *)
Definition sorted (xs : list Z) : list Z := merge_sort Z.le xs.

(** A value that is an [int] or a [float], as [dict.get(key, 0)] on a dict
    of [float]s gives. *)
Inductive number : Set :=
| Int (z : Z)
| Float (f : float).

(** [x - y] *)
Definition sub (x y : number) : result number :=
  match x, y with
  | Int a, Int b => Ok (Int (a - b))
  | Int a, Float g => Float <$> int_sub_float a g
  | Float f, Int b => g ← float_of_int b; Ok (Float (fsub f g))
  | Float f, Float g => Ok (Float (fsub f g))
  end.

(** [x / y] *)
Definition truediv (x y : number) : result number :=
  match x, y with
  | Int a, Int b => Float <$> int_truediv a b
  | Int a, Float g => f ← float_of_int a; Float <$> float_truediv f g
  | Float f, Int b => Float <$> float_truediv_int f b
  | Float f, Float g => Float <$> float_truediv f g
  end.

(** [x * n] for an [int] [n] *)
Definition mul_int (x : number) (n : Z) : result number :=
  match x with
  | Int a => Ok (Int (a * n))
  | Float f => Float <$> float_mul_int f n
  end.

(** [x > 0] *)
Definition is_positive (x : number) : bool :=
  match x with
  | Int a => 0 <? a
  | Float f => SFltb fzero f
  end.

End Py.

(** ** FishLandings.py *)

Module FishLandings.

Record FishLanding : Set := {
  category : string;
  year : Z;
  species : string;
  pounds : Z
}.

End FishLandings.

(** ** PollutionRecords.py *)

Module PollutionRecords.

Record WaterQualityRecord : Set := {
  station_name : string;
  date : string;
  dissolved_oxygen : Py.float;
  water_temp : option Py.float;
  year : Z
}.

End PollutionRecords.

Import FishLandings.
Abbreviation FishLanding := FishLandings.FishLanding.
Abbreviation WaterQualityRecord := PollutionRecords.WaterQualityRecord.

(** ** DataAnalyzer.py *)

Module DataAnalyzer.

(** The condition of the two nested [if]s that end in [continue]:
    [category] is truthy (neither [None] nor the empty string) and differs
    from the landing's category. *)
Definition skips (category : option string) (landing : FishLanding) : bool :=
  match category with
  | None => false
  | Some c =>
      bool_decide (c ≠ EmptyString)
      && bool_decide (FishLandings.category landing ≠ c)
  end.

(** [if key not in d: d[key] = 0] followed by [d[key] += amount]; the
    subscript on the right of [+=] finds the key, which the [if] has just
    put there when it was missing. *)
Definition accumulate (d : gmap Z Z) (key amount : Z) : gmap Z Z :=
  let d := match d !! key with None => <[key := 0]> d | Some _ => d end in
  <[key := d !!! key + amount]> d.

Definition total_fish_landings_per_year
    (fish_list : list FishLanding) (category : option string) : gmap Z Z :=
  fold_left
    (fun by_year landing =>
       if skips category landing then by_year
       else accumulate by_year (year landing) (pounds landing))
    fish_list ∅.

(** The dict comprehension [{year: totals[year] / counts[year] for year in
    totals}] over the keys [years] of [totals], for a division [div] that
    may raise. *)
Definition quotients_of {T} (div : T -> Z -> result Py.float)
    (totals : gmap Z T) (counts : gmap Z Z) (years : list Z)
    : result (gmap Z Py.float) :=
  foldr
    (fun year rest =>
       out ← rest;
       t ← Py.getitem totals year;
       c ← Py.getitem counts year;
       q ← div t c;
       Ok (<[year := q]> out))
    (Ok ∅) years.

Definition quotients {T} (div : T -> Z -> result Py.float)
    (totals : gmap Z T) (counts : gmap Z Z) : result (gmap Z Py.float) :=
  quotients_of div totals counts (map_to_list totals).*1.

(** The body of the loop of [average_fish_landings_per_year]: both dicts
    get the key when [totals] lacks it, then both entries grow.  The two
    dicts have the same keys throughout ([tally_fold] below), so the
    subscripts find theirs. *)
Definition tally (totals counts : gmap Z Z) (key amount : Z)
    : gmap Z Z * gmap Z Z :=
  let '(totals, counts) :=
    match totals !! key with
    | None => (<[key := 0]> totals, <[key := 0]> counts)
    | Some _ => (totals, counts)
    end in
  (<[key := totals !!! key + amount]> totals,
   <[key := counts !!! key + 1]> counts).

Definition average_fish_landings_per_year
    (fish_list : list FishLanding) : result (gmap Z Py.float) :=
  let '(totals, counts) :=
    fold_left
      (fun '(totals, counts) landing =>
         tally totals counts (year landing) (pounds landing))
      fish_list (∅, ∅) in
  quotients Py.int_truediv totals counts.

Definition total_fish_category_landings_overall
    (fish_list : list FishLanding) (category : option string) : Z :=
  fold_left
    (fun total_pounds landing =>
       if skips category landing then total_pounds
       else total_pounds + pounds landing)
    fish_list 0.

(** The body of the loop of [average_oxygen_per_year]. *)
Definition tally_float (totals : gmap Z Py.float) (counts : gmap Z Z)
    (key : Z) (amount : Py.float) : gmap Z Py.float * gmap Z Z :=
  let '(totals, counts) :=
    match totals !! key with
    | None => (<[key := Py.fzero]> totals, <[key := 0]> counts)
    | Some _ => (totals, counts)
    end in
  (<[key := Py.fadd (default Py.fzero (totals !! key)) amount]> totals,
   <[key := counts !!! key + 1]> counts).

Definition oxygen_totals_counts (water_list : list WaterQualityRecord)
    : gmap Z Py.float * gmap Z Z :=
  fold_left
    (fun '(totals, counts) record =>
       tally_float totals counts (PollutionRecords.year record)
         (PollutionRecords.dissolved_oxygen record))
    water_list (∅, ∅).

Definition average_oxygen_per_year
    (water_list : list WaterQualityRecord) : result (gmap Z Py.float) :=
  let '(totals, counts) := oxygen_totals_counts water_list in
  quotients Py.float_truediv_int totals counts.

Module Species.

(** One entry of ["species_changes"]. *)
Record entry : Set := {
  year1_pounds : Z;
  year2_pounds : Z;
  change : Z;
  percent_change : option Py.float
}.

(** The dict [compare_species_between_years] returns. *)
Record comparison : Set := {
  year1 : Z;
  year2 : Z;
  year1_total : Z;
  year2_total : Z;
  species_changes : gmap string entry
}.

End Species.

Module Totals.

(** The dict [compare_total_landings_between_years] returns. *)
Record comparison : Set := {
  year1 : Z;
  year2 : Z;
  year1_total : Z;
  year2_total : Z;
  change : Z;
  percent_change : option Py.float
}.

End Totals.

(** [((b - a) / a * 100) if a > 0 else None] on [int]s. *)
Definition pct_change (a b : Z) : result (option Py.float) :=
  if 0 <? a then
    q ← Py.int_truediv (b - a) a;
    p ← Py.float_mul_int q 100;
    Ok (Some p)
  else Ok None.

(** The first loop of [compare_species_between_years]. *)
Definition species_data (fish_list : list FishLanding) (year1 year2 : Z)
    : gmap string Z * gmap string Z :=
  fold_left
    (fun '(year1_data, year2_data) landing =>
       if bool_decide (year landing = year1)
       then (<[species landing := pounds landing]> year1_data, year2_data)
       else if bool_decide (year landing = year2)
       then (year1_data, <[species landing := pounds landing]> year2_data)
       else (year1_data, year2_data))
    fish_list (∅, ∅).

(** [sum(d.values())] *)
Definition sum_values `{Countable K} (d : gmap K Z) : Z :=
  Py.sum_int (map_to_list d).*2.

Definition species_change (year1_data year2_data : gmap string Z)
    (species : string) : result Species.entry :=
  let pounds1 := default 0 (year1_data !! species) in
  let pounds2 := default 0 (year2_data !! species) in
  let change := pounds2 - pounds1 in
  pct_change ← pct_change pounds1 pounds2;
  Ok {| Species.year1_pounds := pounds1;
        Species.year2_pounds := pounds2;
        Species.change := change;
        Species.percent_change := pct_change |}.

(** The loop [for species in all_species] that fills
    ["species_changes"]. *)
Definition changes_of (year1_data year2_data : gmap string Z)
    (all_species : list string) : result (gmap string Species.entry) :=
  foldr
    (fun species rest =>
       changes ← rest;
       entry ← species_change year1_data year2_data species;
       Ok (<[species := entry]> changes))
    (Ok ∅) all_species.

Definition compare_species_between_years
    (fish_list : list FishLanding) (year1 year2 : Z)
    : result Species.comparison :=
  let '(year1_data, year2_data) := species_data fish_list year1 year2 in
  let all_species : gset string := dom year1_data ∪ dom year2_data in
  changes ← changes_of year1_data year2_data (elements all_species);
  Ok {| Species.year1 := year1;
        Species.year2 := year2;
        Species.year1_total := sum_values year1_data;
        Species.year2_total := sum_values year2_data;
        Species.species_changes := changes |}.

Definition compare_total_landings_between_years
    (fish_list : list FishLanding) (year1 year2 : Z)
    (category : option string) : result Totals.comparison :=
  let totals := total_fish_landings_per_year fish_list category in
  let total1 := default 0 (totals !! year1) in
  let total2 := default 0 (totals !! year2) in
  let change := total2 - total1 in
  pct_change ← pct_change total1 total2;
  Ok {| Totals.year1 := year1;
        Totals.year2 := year2;
        Totals.year1_total := total1;
        Totals.year2_total := total2;
        Totals.change := change;
        Totals.percent_change := pct_change |}.

Module Oxygen.

(** The dict [compare_oxygen_levels_between_years] returns. *)
Record comparison : Set := {
  year1 : Z;
  year2 : Z;
  year1_avg_oxygen : Py.number;
  year2_avg_oxygen : Py.number;
  change : Py.number;
  percent_change : option Py.number
}.

End Oxygen.

(** [averages.get(year, 0)] *)
Definition average_or_zero (averages : gmap Z Py.float) (year : Z) : Py.number :=
  match averages !! year with
  | Some f => Py.Float f
  | None => Py.Int 0
  end.

Definition compare_oxygen_levels_between_years
    (water_list : list WaterQualityRecord) (year1 year2 : Z)
    : result Oxygen.comparison :=
  averages ← average_oxygen_per_year water_list;
  let avg1 := average_or_zero averages year1 in
  let avg2 := average_or_zero averages year2 in
  change ← Py.sub avg2 avg1;
  pct_change ←
    (if Py.is_positive avg1 then
       d ← Py.sub avg2 avg1;
       q ← Py.truediv d avg1;
       p ← Py.mul_int q 100;
       Ok (Some p)
     else Ok None);
  Ok {| Oxygen.year1 := year1;
        Oxygen.year2 := year2;
        Oxygen.year1_avg_oxygen := avg1;
        Oxygen.year2_avg_oxygen := avg2;
        Oxygen.change := change;
        Oxygen.percent_change := pct_change |}.

Module Joined.

(** One row of [get_joined_yearly_data]. *)
Record row : Set := {
  year : Z;
  fish_pounds : Z;
  avg_dissolved_oxygen : Py.float
}.

End Joined.

(** The dict [get_summary_stats] returns. *)
Record summary : Set := {
  total_fish_records : Z;
  total_water_records : Z;
  fish_years : list Z;
  water_years : list Z;
  common_years : Z;
  total_fish_category_pounds : Z;
  pearson_correlation : Py.float
}.

Section Builtins.

(** The builtin [sum] on [float]s: [Py.sum_float_sequential] or
    [Py.sum_float_compensated], by the interpreter's version. *)
Variable sum_float : list Py.float -> Py.float.

(** The C library's [pow(x, 2.0)] for a finite [x] above 0, which
    [x ** 2] calls: [Py.rounded_square] where it rounds correctly. *)
Variable pow2 : Py.float -> Py.float.

(** The builtin [round(x, ndigits)] on a [float], which returns a [float]
    for every [float] when [ndigits] is positive. *)
Variable round : Py.float -> Z -> Py.float.

Definition calc_pearson (fish_list : list FishLanding)
    (water_list : list WaterQualityRecord) (category : option string)
    : result (Py.float * Z) :=
  let fish_by_year := total_fish_landings_per_year fish_list category in
  oxygen_by_year ← average_oxygen_per_year water_list;
  let common_years := Py.sorted_set (dom fish_by_year ∩ dom oxygen_by_year) in
  if Z.of_nat (length common_years) <? 2
  then Ok (Py.fzero, Z.of_nat (length common_years))
  else
    fish_values ← mapM (Py.getitem fish_by_year) common_years;
    oxygen_values ← mapM (Py.getitem oxygen_by_year) common_years;
    let n := Z.of_nat (length common_years) in
    fish_mean ← Py.int_truediv (Py.sum_int fish_values) n;
    oxygen_mean ← Py.float_truediv_int (sum_float oxygen_values) n;
    products ←
      mapM
        (fun i =>
           f ← Py.getindex fish_values i;
           o ← Py.getindex oxygen_values i;
           d ← Py.int_sub_float f fish_mean;
           Ok (Py.fmul d (Py.fsub o oxygen_mean)))
        (seq 0 (length common_years));
    let numerator := sum_float products in
    fish_squares ←
      mapM (fun x => d ← Py.int_sub_float x fish_mean; Py.float_pow2 pow2 d)
        fish_values;
    let fish_variance := sum_float fish_squares in
    oxygen_squares ←
      mapM (fun x => Py.float_pow2 pow2 (Py.fsub x oxygen_mean)) oxygen_values;
    let oxygen_variance := sum_float oxygen_squares in
    denominator ← Py.math_sqrt (Py.fmul fish_variance oxygen_variance);
    if Py.feqb denominator Py.fzero then Ok (Py.fzero, n)
    else
      correlation ← Py.float_truediv numerator denominator;
      Ok (correlation, n).

Definition get_joined_yearly_data (fish_list : list FishLanding)
    (water_list : list WaterQualityRecord) (category : option string)
    : result (list Joined.row) :=
  let fish_by_year := total_fish_landings_per_year fish_list category in
  oxygen_by_year ← average_oxygen_per_year water_list;
  let common_years := Py.sorted_set (dom fish_by_year ∩ dom oxygen_by_year) in
  mapM
    (fun year =>
       pounds ← Py.getitem fish_by_year year;
       oxygen ← Py.getitem oxygen_by_year year;
       Ok {| Joined.year := year;
             Joined.fish_pounds := pounds;
             Joined.avg_dissolved_oxygen := round oxygen 2 |})
    common_years.

Definition get_summary_stats (fish_list : list FishLanding)
    (water_list : list WaterQualityRecord) (category : option string)
    : result summary :=
  let fish_by_year := total_fish_landings_per_year fish_list category in
  oxygen_by_year ← average_oxygen_per_year water_list;
  '(correlation, n_years) ← calc_pearson fish_list water_list category;
  Ok {| total_fish_records := Z.of_nat (length fish_list);
        total_water_records := Z.of_nat (length water_list);
        fish_years := Py.sorted (map_to_list fish_by_year).*2;
        water_years := Py.sorted (map_to_list oxygen_by_year).*1;
        common_years := n_years;
        total_fish_category_pounds :=
          total_fish_category_landings_overall fish_list (Some "Finfish");
        pearson_correlation := round correlation 4 |}.

End Builtins.

End DataAnalyzer.

(** * Specification vocabulary *)

Import DataAnalyzer.

(** A landing passes the category filter when no filter is given, when the
    filter is the empty string, or when it names the landing's category. *)
Definition passes (category : option string) (landing : FishLanding) : Prop :=
  match category with
  | None => True
  | Some c => c = EmptyString ∨ FishLandings.category landing = c
  end.

#[global] Instance passes_dec category landing : Decision (passes category landing).
Proof. destruct category; simpl; apply _. Defined.

(** The landings of year [y] that pass the filter, in list order. *)
Definition qualifying (category : option string) (y : Z)
    (fish_list : list FishLanding) : list FishLanding :=
  filter (fun landing => passes category landing ∧ year landing = y) fish_list.

(** The landings of year [y]. *)
Definition landings_in (y : Z) (fish_list : list FishLanding) : list FishLanding :=
  filter (fun landing => year landing = y) fish_list.

(** The mathematical sum of a list of integers. *)
Definition total (xs : list Z) : Z := foldr Z.add 0 xs.

(** The sum of the values of a dict. *)
Definition values_total `{Countable K} (d : gmap K Z) : Z :=
  total (map_to_list d).*2.

Definition landing (c : string) (y : Z) (s : string) (p : Z) : FishLanding :=
  {| category := c; year := y; species := s; pounds := p |}.

(** The five landings of [make_sample_analyzer] in [UnitTests.py]. *)
Definition sample_fish : list FishLanding :=
  [landing "Finfish" 2000 "Anchovy" 100; landing "Finfish" 2000 "Sardine" 300;
   landing "Crustaceans" 2001 "Crab" 500; landing "Finfish" 2001 "Anchovy" 200;
   landing "Finfish" 2002 "Tuna" 400].

Definition sample (station date : string) (oxygen : Py.float) (y : Z)
    : WaterQualityRecord :=
  {| PollutionRecords.station_name := station;
     PollutionRecords.date := date;
     PollutionRecords.dissolved_oxygen := oxygen;
     PollutionRecords.water_temp := None;
     PollutionRecords.year := y |}.

(** The five samples of [make_sample_analyzer] in [UnitTests.py]. *)
Definition sample_water : list WaterQualityRecord :=
  [sample "S1" "2000-06-01 00:00:00" (Py.nearest 6) 2000;
   sample "S2" "2000-07-01 00:00:00" (Py.nearest 4) 2000;
   sample "S1" "2001-06-01 00:00:00" (Py.nearest 5) 2001;
   sample "S1" "2002-06-01 00:00:00" (Py.nearest 7) 2002;
   sample "S2" "2002-07-01 00:00:00" (Py.nearest 5) 2002].

(** The years that have both a landing passing the filter and an oxygen
    sample. *)
Definition common_years_of (fish_list : list FishLanding)
    (water_list : list WaterQualityRecord) (category : option string) : gset Z :=
  dom (total_fish_landings_per_year fish_list category)
  ∩ list_to_set (PollutionRecords.year <$> water_list).

(** [if key not in d: d[key] = 0.0] followed by [d[key] += amount], the
    part of [tally_float] that concerns the totals. *)
Definition accumulate_float (d : gmap Z Py.float) (key : Z) (amount : Py.float)
    : gmap Z Py.float :=
  let d := match d !! key with None => <[key := Py.fzero]> d | Some _ => d end in
  <[key := Py.fadd (default Py.fzero (d !! key)) amount]> d.


(** A loop that stores [val r] under [key r] for the records [sel]
    selects, each store replacing what the key held. *)
Definition overwrite {A} (sel : A -> bool) (key : A -> string) (val : A -> Z)
    (l : list A) (d : gmap string Z) : gmap string Z :=
  fold_left (fun d r => if sel r then <[key r := val r]> d else d) l d.

Definition selected {A} (sel : A -> bool) (l : list A) : list A :=
  filter (fun r => sel r = true) l.


(** The tests of the two branches of the first loop of
    [compare_species_between_years]: the [elif] is reached only when the
    [if] fails. *)
Definition in_year1 (year1 : Z) (r : FishLanding) : bool :=
  bool_decide (year r = year1).

Definition in_year2 (year1 year2 : Z) (r : FishLanding) : bool :=
  negb (bool_decide (year r = year1)) && bool_decide (year r = year2).

(** The float written [n/d] in decimal notation, such as 7.4 for
    [decimal 74 10]: the binary64 number nearest to the fraction. *)
Definition decimal (n d : Z) : Py.float :=
  SFdiv Py.prec Py.emax (Py.exact n) (Py.exact d).

(** Three years with one sample of 7.4 mg/L each. *)
Definition constant_water : list WaterQualityRecord :=
  [sample "S1" "2000-06-01 00:00:00" (decimal 74 10) 2000;
   sample "S1" "2001-06-01 00:00:00" (decimal 74 10) 2001;
   sample "S1" "2002-06-01 00:00:00" (decimal 74 10) 2002].

Definition rising_fish : list FishLanding :=
  [landing "Finfish" 2000 "Anchovy" 100; landing "Finfish" 2001 "Anchovy" 200;
   landing "Finfish" 2002 "Anchovy" 400].




(** ** FishLandings.py, the functions *)

(** [get_landings_by_year]: the loop of [total_fish_landings_per_year]
    without the filter. *)
Definition get_landings_by_year (landings : list FishLanding) : gmap Z Z :=
  fold_left
    (fun by_year landing => accumulate by_year (year landing) (pounds landing))
    landings ∅.

Section Loader.

(** What reading a spreadsheet can raise. *)
Context {E : Type}.

(** The part of [get_fish_landings_in_specified_year] that follows the
    test of the year: [pd.read_excel] on the file of the year and the loop
    over its rows, which returns the list [results] or raises.  What is
    printed is not recorded. *)
Variable read_year : Z -> E + list FishLanding.

Definition get_fish_landings_in_specified_year (year : Z)
    : E + option (list FishLanding) :=
  if (year <? 1980) || (2002 <? year) then inr None
  else
    match read_year year with
    | inl e => inl e
    | inr results => inr (Some results)
    end.

(** One round of the loop of [get_all_fish_landings]: [if year_landings:]
    holds for a list that is not empty. *)
Definition load_year (all_landings : list FishLanding) (year : Z)
    : E + list FishLanding :=
  match get_fish_landings_in_specified_year year with
  | inl e => inl e
  | inr (Some (landing :: rest)) => inr (all_landings ++ landing :: rest)
  | inr _ => inr all_landings
  end.

Definition get_all_fish_landings (start_year end_year : Z)
    : E + list FishLanding :=
  fold_left
    (fun all_landings year =>
       match all_landings with
       | inl e => inl e
       | inr all_landings => load_year all_landings year
       end)
    (seqZ start_year (end_year + 1 - start_year)) (inr []).

End Loader.

(** ** PollutionRecords.py, the functions *)

(** [WaterQualityRecord.is_low_oxygen], whose threshold is 5.0 when none
    is given. *)
Definition is_low_oxygen (record : WaterQualityRecord)
    (threshold : option Py.float) : bool :=
  SFltb (PollutionRecords.dissolved_oxygen record)
    (default (Py.nearest 5) threshold).

Definition get_oxygen_records_by_year (records : list WaterQualityRecord)
    : gmap Z (list Py.float) :=
  fold_left
    (fun by_year record =>
       let year := PollutionRecords.year record in
       let by_year :=
         match by_year !! year with
         | None => <[year := []]> by_year
         | Some _ => by_year
         end in
       <[year := by_year !!! year ++ [PollutionRecords.dissolved_oxygen record]]>
         by_year)
    records ∅.

(** ** main.py *)

Module Main.

Section Format.

(** The format [f"{r:.4f}"] of a [float]. *)
Variable format_4f : Py.float -> string.

(** The word chosen by the chain of tests on [abs(r)]. *)
Definition strength (r : Py.float) : string :=
  let abs_r := SFabs r in
  if SFltb abs_r (decimal 1 10) then "negligible"
  else if SFltb abs_r (decimal 3 10) then "weak"
  else if SFltb abs_r (decimal 5 10) then "moderate"
  else if SFltb abs_r (decimal 7 10) then "strong"
  else "very strong".

(** ["positive" if r > 0 else "negative"] *)
Definition direction (r : Py.float) : string :=
  if SFltb Py.fzero r then "positive" else "negative".

Definition interpret_correlation (r : Py.float) : string :=
  let abs_r := SFabs r in
  if SFltb abs_r (decimal 1 10)
  then "There is " +:+ strength r
       +:+ " correlation between fish landings and dissolved oxygen levels."
  else "There is a " +:+ strength r +:+ " " +:+ direction r
       +:+ " correlation (r=" +:+ format_4f r
       +:+ ") between fish landings and dissolved oxygen levels.".

End Format.

End Main.

(** ** Vocabulary of the further properties *)

(** The entry of a year series for a year with the weights [ps]: none when
    there is no weight, their sum otherwise. *)
Definition year_total (ps : list Z) : option Z :=
  match ps with
  | [] => None
  | _ => Some (total ps)
  end.

(** The samples of year [y], in list order. *)
Definition samples_in (y : Z) (records : list WaterQualityRecord)
    : list WaterQualityRecord :=
  filter (fun record => PollutionRecords.year record = y) records.

(** The body of the loop of [get_oxygen_records_by_year]. *)
Definition group (by_year : gmap Z (list Py.float)) (year : Z) (value : Py.float)
    : gmap Z (list Py.float) :=
  let by_year :=
    match by_year !! year with
    | None => <[year := []]> by_year
    | Some _ => by_year
    end in
  <[year := by_year !!! year ++ [value]]> by_year.

(** All values of a dict of lists, group after group. *)
Definition grouped_values (by_year : gmap Z (list Py.float)) : list Py.float :=
  mjoin (map_to_list by_year).*2.

(** What a joined row holds for its year, given the two series. *)
Definition row_of (round : Py.float -> Z -> Py.float)
    (fish_by_year : gmap Z Z) (oxygen_by_year : gmap Z Py.float)
    (year : Z) (row : Joined.row) : Prop :=
  Joined.year row = year
  ∧ fish_by_year !! year = Some (Joined.fish_pounds row)
  ∧ ∃ oxygen, oxygen_by_year !! year = Some oxygen
              ∧ Joined.avg_dissolved_oxygen row = round oxygen 2.

(** The sum of the changes of all species of a comparison. *)
Definition changes_total (changes : gmap string Species.entry) : Z :=
  total (Species.change <$> (map_to_list changes).*2).

(** The sentence of [interpret_correlation] for a coefficient below 0.1 in
    magnitude. *)
Definition negligible_sentence : string :=
  "There is negligible correlation between fish landings and dissolved oxygen levels.".

(** The years that have a spreadsheet. *)
Definition has_file (year : Z) : Prop := 1980 <= year <= 2002.

#[global] Instance has_file_dec year : Decision (has_file year).
Proof. unfold has_file. apply _. Defined.

(** The loop of [get_all_fish_landings] over any list of years, from any
    state. *)
Definition load_years {E : Type} (read_year : Z -> E + list FishLanding)
    (years : list Z) (all_landings : E + list FishLanding)
    : E + list FishLanding :=
  fold_left
    (fun all_landings year =>
       match all_landings with
       | inl e => inl e
       | inr all_landings => load_year read_year all_landings year
       end) years all_landings.

(** A float carries the sign bit [s]: NaN, which has none, carries any. *)
Definition has_sign (s : bool) (f : Py.float) : Prop :=
  match f with
  | S754_zero s' | S754_infinity s' | S754_finite s' _ _ => s' = s
  | S754_nan => True
  end.

(** * Theorems *)

(** ** The number model on known values *)

(** The threshold is the first integer that no longer converts. *)
Example nearest_below_threshold :
  Py.nearest (Py.overflow_threshold - 1)
  = S754_finite false (2 ^ 53 - 1) 971
  ∧ Py.nearest Py.overflow_threshold = S754_infinity false
  ∧ SFdiv Py.prec Py.emax (Py.exact Py.overflow_threshold) (Py.exact 1)
    = S754_infinity false.
Proof. repeat split; by vm_compute. Qed.

(** [(2**53 + 1) / 1 == 2.0**53] (ties to even), [1 / 3], [0 / -5 == -0.0]
    and [1 / 2**1075 == 0.0]. *)
Example int_truediv_values :
  Py.int_truediv (2 ^ 53 + 1) 1 = Ok (S754_finite false (2 ^ 52) 1)
  ∧ Py.int_truediv 1 3 = Ok (S754_finite false 6004799503160661 (-54))
  ∧ Py.int_truediv 0 (-5) = Ok (S754_zero true)
  ∧ Py.int_truediv 1 (2 ^ 1075) = Ok (S754_zero false)
  ∧ Py.int_truediv (10 ^ 400) 1 = Raise OverflowError
  ∧ Py.int_truediv 1 0 = Raise ZeroDivisionError.
Proof. repeat split; by vm_compute. Qed.

(** [sum([0.1, 0.1, 0.1]) == 0.30000000000000004] under both summations,
    and a third of it is the float after 0.1. *)
Example sum_of_three_tenths :
  Py.sum_float_sequential [decimal 1 10; decimal 1 10; decimal 1 10]
  = S754_finite false 5404319552844596 (-54)
  ∧ Py.sum_float_compensated [decimal 1 10; decimal 1 10; decimal 1 10]
    = S754_finite false 5404319552844596 (-54)
  ∧ decimal 1 10 = S754_finite false 7205759403792794 (-56)
  ∧ Py.float_truediv_int (S754_finite false 5404319552844596 (-54)) 3
    = Ok (S754_finite false 7205759403792795 (-56)).
Proof. repeat split; by vm_compute. Qed.

(** [sum([0.1] * 10)] is 0.9999999999999999 when added one by one and 1.0
    when compensated. *)
Example sum_of_ten_tenths :
  Py.sum_float_sequential (replicate 10 (decimal 1 10))
  = S754_finite false (2 ^ 53 - 1) (-53)
  ∧ Py.sum_float_compensated (replicate 10 (decimal 1 10)) = Py.nearest 1.
Proof. split; by vm_compute. Qed.

(** ** The unit tests of [UnitTests.py] on the embedding *)

Example test_average_fish_landings_per_year :
  average_fish_landings_per_year sample_fish
  = Ok (<[2000 := Py.nearest 200]>
          (<[2001 := Py.nearest 350]> (<[2002 := Py.nearest 400]> ∅))).
Proof. by vm_compute. Qed.

Example test_total_fish_category_landings_overall :
  total_fish_category_landings_overall sample_fish None = 1500
  ∧ total_fish_category_landings_overall sample_fish (Some "Finfish") = 1000.
Proof. by vm_compute. Qed.

Example test_average_oxygen_per_year :
  average_oxygen_per_year sample_water
  = Ok (<[2000 := Py.nearest 5]>
          (<[2001 := Py.nearest 5]> (<[2002 := Py.nearest 6]> ∅))).
Proof. by vm_compute. Qed.

Example test_compare_species_between_years :
  compare_species_between_years sample_fish 2000 2001
  = Ok {| Species.year1 := 2000;
          Species.year2 := 2001;
          Species.year1_total := 400;
          Species.year2_total := 700;
          Species.species_changes :=
            <["Anchovy" :=
                {| Species.year1_pounds := 100;
                   Species.year2_pounds := 200;
                   Species.change := 100;
                   Species.percent_change := Some (Py.nearest 100) |}]>
              (<["Sardine" :=
                   {| Species.year1_pounds := 300;
                      Species.year2_pounds := 0;
                      Species.change := -300;
                      Species.percent_change := Some (Py.nearest (-100)) |}]>
                 (<["Crab" :=
                      {| Species.year1_pounds := 0;
                         Species.year2_pounds := 500;
                         Species.change := 500;
                         Species.percent_change := None |}]> ∅)) |}.
Proof. by vm_compute. Qed.

Example test_compare_total_landings_between_years_category :
  compare_total_landings_between_years sample_fish 2000 2001 (Some "Finfish")
  = Ok {| Totals.year1 := 2000;
          Totals.year2 := 2001;
          Totals.year1_total := 400;
          Totals.year2_total := 200;
          Totals.change := -200;
          Totals.percent_change := Some (Py.nearest (-50)) |}.
Proof. by vm_compute. Qed.

(** The coefficient is exactly 1.0 under both summations. *)
Example test_calc_pearson_linear_positive :
  let fish := [landing "Finfish" 2000 "A" 10; landing "Finfish" 2001 "A" 20;
               landing "Finfish" 2002 "A" 30] in
  let water := [sample "S1" "2000" (Py.nearest 1) 2000;
                sample "S1" "2001" (Py.nearest 2) 2001;
                sample "S1" "2002" (Py.nearest 3) 2002] in
  calc_pearson Py.sum_float_sequential Py.rounded_square fish water None
  = Ok (Py.nearest 1, 3)
  ∧ calc_pearson Py.sum_float_compensated Py.rounded_square fish water None
    = Ok (Py.nearest 1, 3).
Proof. split; by vm_compute. Qed.

(** Every sample set to 5.0, whose mean is exact. *)
Example test_calc_pearson_zero_variance :
  let water :=
    (fun r => sample (PollutionRecords.station_name r) (PollutionRecords.date r)
                (Py.nearest 5) (PollutionRecords.year r)) <$> sample_water in
  calc_pearson Py.sum_float_sequential Py.rounded_square sample_fish water None
  = Ok (Py.fzero, 3)
  ∧ calc_pearson Py.sum_float_compensated Py.rounded_square sample_fish water
      None
    = Ok (Py.fzero, 3).
Proof. split; by vm_compute. Qed.

(** Beyond the range of a [float] the division of the comprehension
    raises. *)
Example average_fish_landings_per_year_overflow :
  average_fish_landings_per_year [landing "Finfish" 2000 "Anchovy" (10 ^ 400)]
  = Raise OverflowError.
Proof. by vm_compute. Qed.

(** Two landings of one species in one year: the second replaces the
    first, in the species' pounds and in the year's total. *)
Example duplicate_species_last_wins :
  compare_species_between_years
    [landing "Finfish" 2000 "Anchovy" 100; landing "Finfish" 2000 "Anchovy" 50;
     landing "Finfish" 2001 "Anchovy" 200] 2000 2001
  = Ok {| Species.year1 := 2000;
          Species.year2 := 2001;
          Species.year1_total := 50;
          Species.year2_total := 200;
          Species.species_changes :=
            {[ "Anchovy" :=
                 {| Species.year1_pounds := 50;
                    Species.year2_pounds := 200;
                    Species.change := 150;
                    Species.percent_change := Some (Py.nearest 300) |} ]} |}.
Proof. by vm_compute. Qed.

Example calc_pearson_empty
    (sum_float : list Py.float -> Py.float) (pow2 : Py.float -> Py.float) :
  calc_pearson sum_float pow2 [] [] None = Ok (Py.fzero, 0).
Proof. by vm_compute. Qed.

(** ** Sums *)

Lemma sum_int_from xs a : fold_left Z.add xs a = a + total xs.
Proof.
  revert a. induction xs as [|x xs IH]; intros a; simpl; [lia|].
  rewrite IH. lia.
Qed.

Lemma sum_int_total xs : Py.sum_int xs = total xs.
Proof. unfold Py.sum_int. by rewrite sum_int_from. Qed.

#[global] Instance total_Permutation : Proper ((≡ₚ) ==> (=)) total.
Proof. intros xs ys Hp. induction Hp; simpl; lia. Qed.

Lemma total_ones {A} (rs : list A) :
  total ((fun _ => 1) <$> rs) = Z.of_nat (length rs).
Proof.
  induction rs as [|r rs IH]; [done|]. rewrite fmap_cons.
  change (1 + total ((fun _ => 1) <$> rs) = Z.of_nat (S (length rs))).
  rewrite IH. lia.
Qed.

Lemma total_bounded (bound : Z) (xs : list Z) :
  (∀ x, x ∈ xs -> Z.abs x <= bound) ->
  Z.abs (total xs) <= bound * Z.of_nat (length xs).
Proof.
  induction xs as [|x xs IH]; intros Hall; [simpl; lia|].
  assert (Z.abs x <= bound) by (apply Hall; left).
  assert (Z.abs (total xs) <= bound * Z.of_nat (length xs))
    by (apply IH; intros; apply Hall; by right).
  change (total (x :: xs)) with (x + total xs).
  change (length (x :: xs)) with (S (length xs)). lia.
Qed.

(** ** The accumulation loops *)

Lemma skips_passes category landing :
  skips category landing = false ↔ passes category landing.
Proof.
  unfold skips, passes. destruct category as [c|]; [|done].
  rewrite andb_false_iff, !bool_decide_eq_false. split.
  - intros [H|H]; [left|right]; by apply dec_stable.
  - intros [H|H]; [left|right]; auto.
Qed.

Lemma accumulate_lookup (d : gmap Z Z) key amount y :
  accumulate d key amount !! y =
  if decide (key = y) then Some (default 0 (d !! key) + amount) else d !! y.
Proof.
  unfold accumulate. rewrite lookup_insert. case_decide as Hy.
  - f_equal. f_equal. destruct (d !! key) eqn:E.
    + by rewrite lookup_total_alt, E.
    + by rewrite lookup_total_alt, lookup_insert_eq.
  - destruct (d !! key); [done|]. by rewrite lookup_insert_ne.
Qed.

(** A loop that skips some records and accumulates the others, started
    from any dict [m]. *)
Lemma accumulate_fold {A} (skip : A -> bool) (key val : A -> Z) l (m : gmap Z Z) y :
  fold_left (fun d r => if skip r then d else accumulate d (key r) (val r)) l m !! y =
  match filter (fun r => skip r = false ∧ key r = y) l with
  | [] => m !! y
  | rs => Some (default 0 (m !! y) + total (val <$> rs))
  end.
Proof.
  revert m. induction l as [|a l IH]; intros m; [done|].
  simpl. rewrite IH, filter_cons.
  destruct (skip a) eqn:Hs.
  - rewrite decide_False; [done|]. intros [? _]; done.
  - rewrite accumulate_lookup. case_decide as Hy.
    + rewrite decide_True by done. subst y. simpl.
      destruct (filter _ l); simpl; f_equal; lia.
    + rewrite decide_False by (intros [_ ?]; done). done.
Qed.

Lemma total_fish_landings_per_year_lookup fish_list category y :
  total_fish_landings_per_year fish_list category !! y =
  match qualifying category y fish_list with
  | [] => None
  | rs => Some (total (pounds <$> rs))
  end.
Proof.
  unfold total_fish_landings_per_year.
  rewrite (accumulate_fold (skips category) year pounds), lookup_empty.
  unfold qualifying.
  rewrite (list_filter_iff _ (fun r => passes category r ∧ year r = y))
    by (intros r; by rewrite skips_passes).
  by destruct (filter _ fish_list).
Qed.

Lemma counts_lookup {A} (key : A -> Z) (l : list A) y :
  fold_left (fun counts r => accumulate counts (key r) 1) l ∅ !! y =
  match filter (fun r => key r = y) l with
  | [] => None
  | rs => Some (Z.of_nat (length rs))
  end.
Proof.
  etrans; [exact (accumulate_fold (fun _ => false) key (fun _ => 1) l ∅ y)|].
  rewrite lookup_empty.
  rewrite (list_filter_iff _ (fun r => key r = y))
    by (intros r; split; [by intros [_ ?]|done]).
  destruct (filter _ l) eqn:E; [done|]. by rewrite total_ones.
Qed.

Lemma qualifying_None y l : qualifying None y l = landings_in y l.
Proof. apply list_filter_iff. intros r. simpl. split; [by intros [_ ?]|done]. Qed.

(** C4. [total_fish_landings_per_year] maps each year to the sum of the
    pounds of that year's landings that pass the category filter (all
    landings when no filter or an empty one is given), and has no entry for
    a year without such a landing; on the five-landing scenario it gives
    {2000: 400, 2001: 700, 2002: 400} unfiltered and
    {2000: 400, 2001: 200, 2002: 400} for "Finfish". *)
Theorem total_fish_landings_per_year_spec :
  (∀ fish_list category y,
     total_fish_landings_per_year fish_list category !! y =
     match qualifying category y fish_list with
     | [] => None
     | rs => Some (total (pounds <$> rs))
     end)
  ∧ total_fish_landings_per_year sample_fish None
    = <[2000 := 400]> (<[2001 := 700]> (<[2002 := 400]> ∅))
  ∧ total_fish_landings_per_year sample_fish (Some "Finfish")
    = <[2000 := 400]> (<[2001 := 200]> (<[2002 := 400]> ∅)).
Proof.
  split; [apply total_fish_landings_per_year_lookup|].
  split; by vm_compute.
Qed.

(** ** Yearly totals against the grand total *)

Lemma values_total_insert `{Countable K} (d : gmap K Z) k x :
  values_total (<[k := x]> d) = x + values_total (delete k d).
Proof.
  unfold values_total. rewrite <- insert_delete_eq.
  rewrite map_to_list_insert by apply lookup_delete_eq. done.
Qed.

Lemma values_total_delete `{Countable K} (d : gmap K Z) k :
  values_total d = default 0 (d !! k) + values_total (delete k d).
Proof.
  destruct (d !! k) as [x|] eqn:E; simpl.
  - rewrite <- (insert_delete_id d k x E) at 1. rewrite values_total_insert.
    by rewrite delete_delete_eq.
  - by rewrite delete_id.
Qed.

Lemma values_total_accumulate d k v :
  values_total (accumulate d k v) = values_total d + v.
Proof.
  rewrite (values_total_delete d k), (values_total_delete (accumulate d k v) k).
  rewrite accumulate_lookup, decide_True by done. simpl.
  replace (delete k (accumulate d k v)) with (delete k d); [lia|].
  unfold accumulate. rewrite delete_insert_eq. destruct (d !! k); [done|].
  by rewrite delete_insert_eq.
Qed.

(** The two loops, run side by side from a dict whose values sum to the
    running total. *)
Lemma total_overall_from category l (m : gmap Z Z) a :
  values_total m = a ->
  values_total
    (fold_left
       (fun by_year landing =>
          if skips category landing then by_year
          else accumulate by_year (year landing) (pounds landing)) l m) =
  fold_left
    (fun total_pounds landing =>
       if skips category landing then total_pounds
       else total_pounds + pounds landing) l a.
Proof.
  revert m a. induction l as [|r l IH]; intros m a Hm; [done|].
  simpl. destruct (skips category r); apply IH; [done|].
  rewrite values_total_accumulate. lia.
Qed.

(** C5. For every list of landings and every category filter, the values
    of [total_fish_landings_per_year] summed over all years give
    [total_fish_category_landings_overall] with the same filter. *)
Theorem yearly_totals_sum_to_overall fish_list category :
  values_total (total_fish_landings_per_year fish_list category) =
  total_fish_category_landings_overall fish_list category.
Proof. by apply total_overall_from. Qed.

(** ** The per-year quotients *)

Lemma quotients_of_lookup {T} (div : T -> Z -> result Py.float)
    (totals : gmap Z T) (counts : gmap Z Z) (years : list Z) m y a :
  quotients_of div totals counts years = Ok m ->
  m !! y = Some a ↔
  y ∈ years ∧
  ∃ t c, totals !! y = Some t ∧ counts !! y = Some c ∧ div t c = Ok a.
Proof.
  revert m. induction years as [|k years IH]; intros m; simpl.
  - intros [= <-]. rewrite lookup_empty. split; [done|].
    intros [H _]. by apply elem_of_nil in H.
  - destruct (quotients_of _ _ _ years) as [out|e]; [|done]. cbn.
    unfold Py.getitem.
    destruct (totals !! k) as [t|] eqn:Et; [|done]. cbn.
    destruct (counts !! k) as [c|] eqn:Ec; [|done]. cbn.
    destruct (div t c) as [q|] eqn:Eq; [|done]. cbn.
    intros [= <-]. rewrite lookup_insert. case_decide as Hk.
    + subst k. split.
      * intros [= <-]. split; [left|]. eauto.
      * intros [_ (t' & c' & ? & ? & ?)]. congruence.
    + rewrite (IH out eq_refl), elem_of_cons. split.
      * intros [? ?]. split; [by right|done].
      * intros [[?|?] ?]; [congruence|done].
Qed.

Lemma quotients_of_some {T} (div : T -> Z -> result Py.float)
    (totals : gmap Z T) (counts : gmap Z Z) (years : list Z) m y :
  quotients_of div totals counts years = Ok m ->
  y ∈ years -> is_Some (m !! y).
Proof.
  revert m. induction years as [|k years IH]; intros m; simpl.
  - intros _ H. by apply elem_of_nil in H.
  - destruct (quotients_of _ _ _ years) as [out|e]; [|done]. cbn.
    destruct (Py.getitem totals k) as [t|]; [|done]. cbn.
    destruct (Py.getitem counts k) as [c|]; [|done]. cbn.
    destruct (div t c) as [q|]; [|done]. cbn.
    intros [= <-] Hy. rewrite lookup_insert. case_decide; [by eexists|].
    apply (IH out eq_refl). apply elem_of_cons in Hy as [->|Hy]; done.
Qed.

Lemma quotients_of_total {T} (div : T -> Z -> result Py.float)
    (totals : gmap Z T) (counts : gmap Z Z) (years : list Z) :
  (∀ y, y ∈ years ->
        ∃ t c a, totals !! y = Some t ∧ counts !! y = Some c ∧ div t c = Ok a) ->
  ∃ m, quotients_of div totals counts years = Ok m.
Proof.
  induction years as [|k years IH]; intros Hall; simpl; [by eexists|].
  destruct IH as [out ->]; [intros y Hy; apply Hall; by right|].
  destruct (Hall k) as (t & c & a & Ht & Hc & Ha); [by left|].
  cbn. unfold Py.getitem. rewrite Ht. cbn. rewrite Hc. cbn. rewrite Ha. cbn.
  by eexists.
Qed.

Lemma key_of_map_to_list {T} (totals : gmap Z T) y t :
  totals !! y = Some t -> y ∈ (map_to_list totals).*1.
Proof.
  intros Ht. apply list_elem_of_fmap. exists (y, t). split; [done|].
  by apply elem_of_map_to_list.
Qed.

Lemma quotients_lookup {T} (div : T -> Z -> result Py.float)
    (totals : gmap Z T) (counts : gmap Z Z) m y a :
  quotients div totals counts = Ok m ->
  m !! y = Some a ↔
  ∃ t c, totals !! y = Some t ∧ counts !! y = Some c ∧ div t c = Ok a.
Proof.
  intros Hq. rewrite (quotients_of_lookup _ _ _ _ _ y a Hq). split.
  - by intros [_ ?].
  - intros (t & c & Ht & ?). split; [by eapply key_of_map_to_list|eauto].
Qed.

Lemma quotients_dom {T} (div : T -> Z -> result Py.float)
    (totals : gmap Z T) (counts : gmap Z Z) m :
  quotients div totals counts = Ok m -> dom m = dom totals.
Proof.
  intros Hq. apply set_eq. intros y. rewrite !elem_of_dom. split.
  - intros [a Ha].
    apply (quotients_lookup _ _ _ _ _ _ Hq) in Ha as (t & _ & Ht & _).
    by eexists.
  - intros [t Ht]. apply (quotients_of_some _ _ _ _ _ _ Hq).
    by eapply key_of_map_to_list.
Qed.

Lemma quotients_total {T} (div : T -> Z -> result Py.float)
    (totals : gmap Z T) (counts : gmap Z Z) :
  (∀ y t, totals !! y = Some t ->
          ∃ c a, counts !! y = Some c ∧ div t c = Ok a) ->
  ∃ m, quotients div totals counts = Ok m.
Proof.
  intros Hall. apply quotients_of_total. intros y Hy.
  apply list_elem_of_fmap in Hy as ([y' t] & -> & Hy).
  apply elem_of_map_to_list in Hy.
  destruct (Hall _ _ Hy) as (c & a & ? & ?). exists t, c, a. done.
Qed.

(** ** Averages of landings *)

Lemma accumulate_dom (d : gmap Z Z) k v : dom (accumulate d k v) = {[k]} ∪ dom d.
Proof.
  unfold accumulate. rewrite dom_insert_L.
  destruct (d !! k); [done|]. rewrite dom_insert_L.
  by rewrite (assoc_L (∪)), (idemp_L (∪)).
Qed.

Lemma same_keys {V W} (totals : gmap Z V) (counts : gmap Z W) k :
  dom totals = dom counts -> totals !! k = None -> counts !! k = None.
Proof.
  intros Hdom Hk. apply not_elem_of_dom. rewrite <- Hdom.
  by apply not_elem_of_dom.
Qed.

Lemma same_keys_some {V W} (totals : gmap Z V) (counts : gmap Z W) k v :
  dom totals = dom counts -> totals !! k = Some v -> is_Some (counts !! k).
Proof.
  intros Hdom Hk. apply elem_of_dom. rewrite <- Hdom. by eapply elem_of_dom_2.
Qed.

(** While both dicts have the same keys, [tally] accumulates in each. *)
Lemma tally_accumulate totals counts k v :
  dom totals = dom counts ->
  tally totals counts k v = (accumulate totals k v, accumulate counts k 1).
Proof.
  intros Hdom. unfold tally, accumulate. destruct (totals !! k) eqn:Et.
  - by destruct (same_keys_some _ _ _ _ Hdom Et) as [c ->].
  - by rewrite (same_keys _ _ _ Hdom Et).
Qed.

Lemma tally_fold {A} (key val : A -> Z) l totals counts :
  dom totals = dom counts ->
  fold_left (fun '(totals, counts) r => tally totals counts (key r) (val r))
    l (totals, counts)
  = (fold_left (fun totals r => accumulate totals (key r) (val r)) l totals,
     fold_left (fun counts r => accumulate counts (key r) 1) l counts).
Proof.
  revert totals counts. induction l as [|a l IH]; intros totals counts Hdom; [done|].
  simpl. rewrite tally_accumulate by done. apply IH.
  by rewrite !accumulate_dom, Hdom.
Qed.

Lemma average_fish_unfold fish_list :
  average_fish_landings_per_year fish_list =
  quotients Py.int_truediv (total_fish_landings_per_year fish_list None)
    (fold_left (fun counts r => accumulate counts (year r) 1) fish_list ∅).
Proof.
  unfold average_fish_landings_per_year.
  by rewrite (tally_fold year pounds) by done.
Qed.

(** C6. For every list of landings and every year [y] present in the
    result of [average_fish_landings_per_year], the average for [y] is the
    unfiltered [total_fish_landings_per_year] value for [y] divided, with
    Python's [/], by the number of landings whose year is [y]. *)
Theorem average_is_total_over_count fish_list m y a :
  average_fish_landings_per_year fish_list = Ok m ->
  m !! y = Some a ->
  ∃ t, total_fish_landings_per_year fish_list None !! y = Some t ∧
       Py.int_truediv t (Z.of_nat (length (landings_in y fish_list))) = Ok a.
Proof.
  rewrite average_fish_unfold. intros Hq Ha.
  apply (quotients_lookup _ _ _ _ _ _ Hq) in Ha as (t & c & Ht & Hc & Ha).
  exists t. split; [done|]. rewrite counts_lookup in Hc.
  fold (landings_in y fish_list) in Hc.
  destruct (landings_in y fish_list); [done|]. by injection Hc as <-.
Qed.

Lemma average_is_total_over_count_witness :
  ∃ t, total_fish_landings_per_year sample_fish None !! 2001 = Some t ∧
       Py.int_truediv t (Z.of_nat (length (landings_in 2001 sample_fish)))
       = Ok (Py.nearest 350).
Proof.
  apply (average_is_total_over_count sample_fish
           (<[2000 := Py.nearest 200]>
              (<[2001 := Py.nearest 350]> (<[2002 := Py.nearest 400]> ∅))));
    by vm_compute.
Defined.

(** ** The keys of the yearly series *)

Lemma total_fish_landings_per_year_dom fish_list category y :
  y ∈ dom (total_fish_landings_per_year fish_list category) ↔
  ∃ r, r ∈ fish_list ∧ passes category r ∧ year r = y.
Proof.
  rewrite elem_of_dom, total_fish_landings_per_year_lookup.
  destruct (qualifying category y fish_list) as [|r rs] eqn:E.
  - split; [by intros [? ?]|]. intros (r & Hr & Hp & Hy).
    assert (r ∈ qualifying category y fish_list) as Hin
      by (apply list_elem_of_filter; done).
    rewrite E in Hin. by apply elem_of_nil in Hin.
  - split; [|by eexists]. intros _.
    assert (r ∈ qualifying category y fish_list) as Hin by (rewrite E; left).
    apply list_elem_of_filter in Hin as [[? ?] ?]. eauto.
Qed.

Lemma int_truediv_in_range t c :
  0 < c -> Z.abs t < Py.overflow_threshold * c ->
  ∃ a, Py.int_truediv t c = Ok a.
Proof.
  intros Hc Ht. unfold Py.int_truediv.
  destruct (Z.eqb_spec c 0); [lia|].
  rewrite (Z.abs_eq c) by lia.
  destruct (Z.leb_spec (Py.overflow_threshold * c) (Z.abs t)); [lia|].
  by eexists.
Qed.

Lemma average_fish_landings_per_year_returns fish_list :
  (∀ r, r ∈ fish_list -> Z.abs (pounds r) < Py.overflow_threshold) ->
  ∃ m, average_fish_landings_per_year fish_list = Ok m.
Proof.
  intros Hall. rewrite average_fish_unfold. apply quotients_total.
  intros y t Ht. rewrite counts_lookup. fold (landings_in y fish_list).
  rewrite total_fish_landings_per_year_lookup, qualifying_None in Ht.
  destruct (landings_in y fish_list) as [|r rs] eqn:E; [done|].
  injection Ht as <-. eexists.
  assert (Hb : Z.abs (total (pounds <$> r :: rs))
               <= (Py.overflow_threshold - 1)
                  * Z.of_nat (length (pounds <$> r :: rs))).
  { apply total_bounded. intros x Hx.
    apply list_elem_of_fmap in Hx as (r' & -> & Hr').
    rewrite <- E in Hr'. apply list_elem_of_filter in Hr' as [_ Hr'].
    specialize (Hall _ Hr'). lia. }
  rewrite length_fmap in Hb.
  destruct (int_truediv_in_range (total (pounds <$> r :: rs))
              (Z.of_nat (length (r :: rs)))) as [a Ha]; [simpl; lia| |eauto].
  change (length (r :: rs)) with (S (length rs)) in *.
  generalize dependent Py.overflow_threshold. intros T _ Hb. nia.
Qed.

Lemma average_fish_landings_per_year_dom fish_list m y :
  average_fish_landings_per_year fish_list = Ok m ->
  y ∈ dom m ↔ ∃ r, r ∈ fish_list ∧ year r = y.
Proof.
  rewrite average_fish_unfold. intros Hq. rewrite (quotients_dom _ _ _ _ Hq).
  rewrite total_fish_landings_per_year_dom. simpl. split.
  - intros (r & ? & _ & ?). eauto.
  - intros (r & ? & ?). eauto.
Qed.

Lemma accumulate_float_dom (d : gmap Z Py.float) k v :
  dom (accumulate_float d k v) = {[k]} ∪ dom d.
Proof.
  unfold accumulate_float. rewrite dom_insert_L.
  destruct (d !! k); [done|]. rewrite dom_insert_L.
  by rewrite (assoc_L (∪)), (idemp_L (∪)).
Qed.

Lemma float_totals_dom {A} (key : A -> Z) (val : A -> Py.float) l
    (m : gmap Z Py.float) y :
  y ∈ dom (fold_left (fun totals r => accumulate_float totals (key r) (val r)) l m)
  ↔ y ∈ dom m ∨ ∃ r, r ∈ l ∧ key r = y.
Proof.
  revert m. induction l as [|a l IH]; intros m; simpl.
  - split; [by left|]. intros [?|(r & Hr & _)]; [done|].
    by apply elem_of_nil in Hr.
  - rewrite IH, accumulate_float_dom, elem_of_union, elem_of_singleton.
    split.
    + intros [[->|?]|(r & ? & ?)]; [right; exists a; split; [left|done]|by left|].
      right. exists r. split; [by right|done].
    + intros [?|(r & Hr & ?)]; [left; by right|].
      apply elem_of_cons in Hr as [->|Hr]; [left; by left|]. right. eauto.
Qed.

Lemma tally_float_accumulate totals counts k v :
  dom totals = dom counts ->
  tally_float totals counts k v
  = (accumulate_float totals k v, accumulate counts k 1).
Proof.
  intros Hdom. unfold tally_float, accumulate_float, accumulate.
  destruct (totals !! k) eqn:Et.
  - by destruct (same_keys_some _ _ _ _ Hdom Et) as [c ->].
  - by rewrite (same_keys _ _ _ Hdom Et).
Qed.

Lemma tally_float_fold {A} (key : A -> Z) (val : A -> Py.float) l totals counts :
  dom totals = dom counts ->
  fold_left (fun '(totals, counts) r => tally_float totals counts (key r) (val r))
    l (totals, counts)
  = (fold_left (fun totals r => accumulate_float totals (key r) (val r)) l totals,
     fold_left (fun counts r => accumulate counts (key r) 1) l counts).
Proof.
  revert totals counts. induction l as [|a l IH]; intros totals counts Hdom; [done|].
  simpl. rewrite tally_float_accumulate by done. apply IH.
  by rewrite accumulate_dom, accumulate_float_dom, Hdom.
Qed.

Lemma average_oxygen_unfold water_list :
  average_oxygen_per_year water_list =
  quotients Py.float_truediv_int
    (fold_left
       (fun totals r =>
          accumulate_float totals (PollutionRecords.year r)
            (PollutionRecords.dissolved_oxygen r)) water_list ∅)
    (fold_left (fun counts r => accumulate counts (PollutionRecords.year r) 1)
       water_list ∅).
Proof.
  unfold average_oxygen_per_year, oxygen_totals_counts.
  by rewrite (tally_float_fold PollutionRecords.year
                PollutionRecords.dissolved_oxygen) by done.
Qed.

Lemma sys_maxsize_in_range : Py.sys_maxsize < Py.overflow_threshold.
Proof. by vm_compute. Qed.

Lemma float_truediv_int_count t c :
  0 < c <= Py.sys_maxsize -> ∃ a, Py.float_truediv_int t c = Ok a.
Proof.
  intros Hc. pose proof sys_maxsize_in_range.
  unfold Py.float_truediv_int, Py.float_of_int.
  destruct (Z.leb_spec Py.overflow_threshold (Z.abs c)); [lia|]. cbn.
  destruct (Z.eqb_spec c 0); [lia|]. by eexists.
Qed.

Lemma average_oxygen_per_year_keys water_list :
  Z.of_nat (length water_list) <= Py.sys_maxsize ->
  ∃ m, average_oxygen_per_year water_list = Ok m ∧
       ∀ y, y ∈ dom m ↔ ∃ r, r ∈ water_list ∧ PollutionRecords.year r = y.
Proof.
  intros Hlen. rewrite average_oxygen_unfold.
  destruct (quotients_total Py.float_truediv_int
    (fold_left (fun totals r => accumulate_float totals (PollutionRecords.year r)
            (PollutionRecords.dissolved_oxygen r)) water_list ∅)
    (fold_left (fun counts r => accumulate counts (PollutionRecords.year r) 1)
       water_list ∅)) as [m Hm].
  - intros y t Ht. apply elem_of_dom_2 in Ht.
    apply float_totals_dom in Ht as [Ht|(r & Hr & Hy)];
      [by rewrite dom_empty_L in Ht|].
    rewrite counts_lookup.
    pose proof (length_filter (fun r => PollutionRecords.year r = y) water_list)
      as Hle.
    destruct (filter _ water_list) as [|r' rs] eqn:E.
    + assert (r ∈ filter (fun r => PollutionRecords.year r = y) water_list)
        as Hin by (by apply list_elem_of_filter).
      rewrite E in Hin. by apply elem_of_nil in Hin.
    + destruct (float_truediv_int_count t (Z.of_nat (length (r' :: rs))))
        as [a Ha]; [simpl in *; lia|eauto].
  - exists m. split; [done|]. intros y. rewrite (quotients_dom _ _ _ _ Hm).
    rewrite float_totals_dom, dom_empty_L.
    split; [intros [H|?]; [by apply elem_of_empty in H|done]|by right].
Qed.

(** C8. The keys of the by-year series are exactly the years with a
    qualifying record.  For [total_fish_landings_per_year] they are the
    years of the landings that pass the filter.  For the mapping that
    [average_fish_landings_per_year] returns they are the years of the
    landings, and it returns one whenever every weight is within the range
    of a [float].  For [average_oxygen_per_year] they are the years of the
    samples.  A year without such a record is therefore absent.  On an
    empty list the three series are empty and
    [total_fish_category_landings_overall] is 0. *)
Theorem by_year_keys :
  (∀ fish_list category y,
     y ∈ dom (total_fish_landings_per_year fish_list category) ↔
     ∃ r, r ∈ fish_list ∧ passes category r ∧ year r = y)
  ∧ (∀ fish_list m y,
       average_fish_landings_per_year fish_list = Ok m ->
       y ∈ dom m ↔ ∃ r, r ∈ fish_list ∧ year r = y)
  ∧ (∀ fish_list,
       (∀ r, r ∈ fish_list -> Z.abs (pounds r) < Py.overflow_threshold) ->
       ∃ m, average_fish_landings_per_year fish_list = Ok m)
  ∧ (∀ water_list,
       Z.of_nat (length water_list) <= Py.sys_maxsize ->
       ∃ m, average_oxygen_per_year water_list = Ok m ∧
            ∀ y, y ∈ dom m ↔
                 ∃ r, r ∈ water_list ∧ PollutionRecords.year r = y)
  ∧ (∀ category, total_fish_landings_per_year [] category = ∅)
  ∧ average_fish_landings_per_year [] = Ok ∅
  ∧ average_oxygen_per_year [] = Ok ∅
  ∧ (∀ category, total_fish_category_landings_overall [] category = 0).
Proof.
  split; [apply total_fish_landings_per_year_dom|].
  split; [apply average_fish_landings_per_year_dom|].
  split; [apply average_fish_landings_per_year_returns|].
  split; [apply average_oxygen_per_year_keys|].
  repeat split.
Qed.

Lemma by_year_keys_witness :
  (2001 ∈ dom (<[2000 := Py.nearest 200]>
                 (<[2001 := Py.nearest 350]>
                    (<[2002 := Py.nearest 400]> (∅ : gmap Z Py.float))))
   ↔ ∃ r, r ∈ sample_fish ∧ year r = 2001)
  ∧ (∃ m, average_fish_landings_per_year sample_fish = Ok m)
  ∧ (∃ m, average_oxygen_per_year sample_water = Ok m ∧
          ∀ y, y ∈ dom m ↔ ∃ r, r ∈ sample_water ∧ PollutionRecords.year r = y).
Proof.
  split; [|split].
  - apply (proj1 (proj2 by_year_keys) sample_fish). by vm_compute.
  - apply (proj1 (proj2 (proj2 by_year_keys)) sample_fish).
    intros r Hr. unfold sample_fish in Hr.
    repeat (apply elem_of_cons in Hr as [->|Hr]; [by vm_compute|]).
    by apply elem_of_nil in Hr.
  - apply (proj1 (proj2 (proj2 (proj2 by_year_keys))) sample_water).
    by vm_compute.
Defined.

(** ** Comparison of two yearly totals *)

(** C7. With [total1] and [total2] the totals of the two years (0 for a
    year absent from the series), [compare_total_landings_between_years]
    reports [change = total2 - total1]; when [total1 > 0] and the quotient
    [(total2 - total1) / total1] is the float [q], it reports
    [percent_change = q * 100], and the quotient is a float whenever
    [|total2 - total1|] is below [total1] times the overflow threshold;
    when [total1 = 0] it reports
    [percent_change = None].  On the five-landing scenario, comparing 2000
    with 2001 gives change 300 and percent_change 75.0. *)
Theorem compare_total_landings_between_years_spec :
  (∀ fish_list year1 year2 category,
     let totals := total_fish_landings_per_year fish_list category in
     let total1 := default 0 (totals !! year1) in
     let total2 := default 0 (totals !! year2) in
     (0 < total1 ->
      ∀ q, Py.int_truediv (total2 - total1) total1 = Ok q ->
           compare_total_landings_between_years fish_list year1 year2 category
           = Ok {| Totals.year1 := year1;
                   Totals.year2 := year2;
                   Totals.year1_total := total1;
                   Totals.year2_total := total2;
                   Totals.change := total2 - total1;
                   Totals.percent_change := Some (Py.fmul q (Py.nearest 100)) |})
     ∧ (0 < total1 ->
        Z.abs (total2 - total1) < Py.overflow_threshold * total1 ->
        ∃ q, Py.int_truediv (total2 - total1) total1 = Ok q)
     ∧ (total1 = 0 ->
        compare_total_landings_between_years fish_list year1 year2 category
        = Ok {| Totals.year1 := year1;
                Totals.year2 := year2;
                Totals.year1_total := 0;
                Totals.year2_total := total2;
                Totals.change := total2 - 0;
                Totals.percent_change := None |}))
  ∧ compare_total_landings_between_years sample_fish 2000 2001 None
    = Ok {| Totals.year1 := 2000;
            Totals.year2 := 2001;
            Totals.year1_total := 400;
            Totals.year2_total := 700;
            Totals.change := 300;
            Totals.percent_change := Some (Py.nearest 75) |}.
Proof.
  split; [|by vm_compute].
  intros fish_list year1 year2 category totals total1 total2.
  unfold compare_total_landings_between_years.
  fold totals. fold total1. fold total2. unfold pct_change.
  split; [|split].
  - intros Hpos q Hq. destruct (Z.ltb_spec 0 total1); [|lia].
    rewrite Hq. done.
  - apply int_truediv_in_range.
  - intros ->. done.
Qed.

Lemma compare_total_landings_between_years_spec_witness :
  compare_total_landings_between_years sample_fish 2000 2002 (Some "Finfish")
  = Ok {| Totals.year1 := 2000;
          Totals.year2 := 2002;
          Totals.year1_total := 400;
          Totals.year2_total := 400;
          Totals.change := 0;
          Totals.percent_change := Some Py.fzero |}
  ∧ (∃ q, Py.int_truediv (700 - 400) 400 = Ok q)
  ∧ compare_total_landings_between_years sample_fish 1999 2001 None
    = Ok {| Totals.year1 := 1999;
            Totals.year2 := 2001;
            Totals.year1_total := 0;
            Totals.year2_total := 700;
            Totals.change := 700;
            Totals.percent_change := None |}.
Proof.
  split; [|split].
  - apply (proj1 (proj1 compare_total_landings_between_years_spec
                    sample_fish 2000 2002 (Some "Finfish"))
             ltac:(by vm_compute) Py.fzero).
    by vm_compute.
  - apply (proj1 (proj2 (proj1 compare_total_landings_between_years_spec
                           sample_fish 2000 2001 None))); by vm_compute.
  - apply (proj2 (proj2 (proj1 compare_total_landings_between_years_spec
                           sample_fish 1999 2001 None))).
    by vm_compute.
Defined.

(** ** Correlation on fewer than two common years *)

Lemma length_sorted_set (s : gset Z) : length (Py.sorted_set s) = size s.
Proof. unfold Py.sorted_set. by rewrite merge_sort_Permutation. Qed.

Lemma average_oxygen_per_year_dom water_list :
  Z.of_nat (length water_list) <= Py.sys_maxsize ->
  ∃ m, average_oxygen_per_year water_list = Ok m ∧
       dom m = list_to_set (PollutionRecords.year <$> water_list).
Proof.
  intros Hlen.
  destruct (average_oxygen_per_year_keys water_list Hlen) as (m & Hm & Hkeys).
  exists m. split; [done|]. apply set_eq. intros y.
  rewrite Hkeys, elem_of_list_to_set, list_elem_of_fmap. split.
  - intros (r & ? & ?). by exists r.
  - intros (r & ? & ?). by exists r.
Qed.

(** C3. For every two lists (the empty ones included), the oxygen series
    is computed without an exception and its years are those of the
    samples; when fewer than two years are common to it and to the fish
    totals series, [calc_pearson] returns the coefficient 0.0 together with
    the number of common years, and raises nothing.  The list of samples
    is a Python list, which has at most [sys.maxsize] items. *)
Theorem calc_pearson_few_common_years
    (sum_float : list Py.float -> Py.float) (pow2 : Py.float -> Py.float)
    fish_list water_list category :
  Z.of_nat (length water_list) <= Py.sys_maxsize ->
  (∃ oxygen_by_year,
     average_oxygen_per_year water_list = Ok oxygen_by_year ∧
     common_years_of fish_list water_list category
     = dom (total_fish_landings_per_year fish_list category) ∩ dom oxygen_by_year)
  ∧ ((size (common_years_of fish_list water_list category) < 2)%nat ->
     calc_pearson sum_float pow2 fish_list water_list category
     = Ok (Py.fzero,
           Z.of_nat (size (common_years_of fish_list water_list category)))).
Proof.
  intros Hlen. unfold calc_pearson.
  destruct (average_oxygen_per_year_dom water_list Hlen) as (m & -> & Hdom).
  split; [exists m; split; [done|]; unfold common_years_of; by rewrite Hdom|].
  intros Hfew. cbn. rewrite Hdom.
  fold (common_years_of fish_list water_list category).
  rewrite length_sorted_set.
  destruct (Z.ltb_spec
              (Z.of_nat (size (common_years_of fish_list water_list category))) 2);
    [done|lia].
Qed.

Lemma calc_pearson_few_common_years_witness :
  calc_pearson Py.sum_float_compensated Py.rounded_square
    [landing "Finfish" 2000 "Anchovy" 100; landing "Finfish" 2001 "Anchovy" 200]
    [sample "S1" "2001-06-01 00:00:00" (Py.nearest 5) 2001;
     sample "S1" "2002-06-01 00:00:00" (Py.nearest 7) 2002] None
  = Ok (Py.fzero, 1).
Proof.
  apply (proj2 (calc_pearson_few_common_years Py.sum_float_compensated
                  Py.rounded_square
                  [landing "Finfish" 2000 "Anchovy" 100;
                   landing "Finfish" 2001 "Anchovy" 200]
                  [sample "S1" "2001-06-01 00:00:00" (Py.nearest 5) 2001;
                   sample "S1" "2002-06-01 00:00:00" (Py.nearest 7) 2002] None
                  ltac:(by vm_compute))).
  vm_compute. lia.
Defined.

(** ** The summary *)

(** C9. In the dict [get_summary_stats] returns, ["fish_years"] is the
    ascending sort of the values (the pounds) of the fish totals series,
    not of its years, while ["water_years"] is the ascending sort of the
    years of the oxygen series.  On the unit tests' sample data
    ["fish_years"] is [400, 400, 700] and ["water_years"] is
    [2000, 2001, 2002] (computed with [Py.rounded_square] for the squares
    of the correlation, which these two fields do not depend on). *)
Theorem summary_fish_years_hold_pounds :
  (∀ (sum_float : list Py.float -> Py.float) (pow2 : Py.float -> Py.float)
     (round : Py.float -> Z -> Py.float)
     fish_list water_list category s,
     get_summary_stats sum_float pow2 round fish_list water_list category
     = Ok s ->
     (Sorted Z.le (fish_years s) ∧
      fish_years s
      ≡ₚ (map_to_list (total_fish_landings_per_year fish_list category)).*2)
     ∧ ∃ oxygen_by_year,
         average_oxygen_per_year water_list = Ok oxygen_by_year ∧
         Sorted Z.le (water_years s) ∧
         water_years s ≡ₚ (map_to_list oxygen_by_year).*1)
  ∧ (∀ round,
       (fun s => (fish_years s, water_years s))
       <$> get_summary_stats Py.sum_float_sequential Py.rounded_square round
             sample_fish sample_water None
       = Ok ([400; 400; 700], [2000; 2001; 2002])).
Proof.
  split; [|intros round; by vm_compute].
  intros sum_float pow2 round fish_list water_list category s.
  unfold get_summary_stats.
  destruct (average_oxygen_per_year water_list) as [oxygen|]; [|done]. cbn.
  destruct (calc_pearson _ _ _ _ _) as [[correlation n]|]; [|done]. cbn.
  intros [= <-]. simpl. unfold Py.sorted. split.
  - split; [apply Sorted_merge_sort, _|apply merge_sort_Permutation].
  - exists oxygen. split; [done|].
    split; [apply Sorted_merge_sort, _|apply merge_sort_Permutation].
Qed.

Lemma summary_fish_years_hold_pounds_witness :
  let s := {| total_fish_records := 5;
              total_water_records := 5;
              fish_years := [400; 400; 700];
              water_years := [2000; 2001; 2002];
              common_years := 3;
              total_fish_category_pounds := 1000;
              pearson_correlation :=
                S754_finite true 9007199254740991 (-54) |} in
  Sorted Z.le (fish_years s) ∧
  fish_years s ≡ₚ (map_to_list (total_fish_landings_per_year sample_fish None)).*2.
Proof.
  intros s.
  apply (proj1 (proj1 summary_fish_years_hold_pounds
                  Py.sum_float_sequential Py.rounded_square (fun x _ => x)
                  sample_fish sample_water None s ltac:(by vm_compute))).
Defined.

(** ** Species by species *)

Lemma overwrite_lookup {A} (sel : A -> bool) key val l d k :
  overwrite sel key val l d !! k =
  match last (filter (fun r => key r = k) (selected sel l)) with
  | Some r => Some (val r)
  | None => d !! k
  end.
Proof.
  revert d. induction l as [|a l IH]; intros d; [done|].
  unfold overwrite, selected in *. simpl. rewrite IH, filter_cons.
  destruct (sel a) eqn:Hs.
  - rewrite decide_True by done. rewrite filter_cons. case_decide as Hk.
    + rewrite last_cons. destruct (last _); [done|]. subst k.
      by rewrite lookup_insert_eq.
    + destruct (last _); [done|]. by rewrite lookup_insert_ne.
  - rewrite decide_False by congruence. done.
Qed.





Lemma species_data_folds fish_list year1 year2 :
  species_data fish_list year1 year2 =
  (overwrite (in_year1 year1) species pounds fish_list ∅,
   overwrite (in_year2 year1 year2) species pounds fish_list ∅).
Proof.
  unfold species_data, overwrite.
  generalize (∅ : gmap string Z) at 1 3. generalize (∅ : gmap string Z).
  induction fish_list as [|r l IH]; intros d2 d1; [done|].
  simpl. unfold in_year1 at 2, in_year2 at 2.
  destruct (bool_decide (year r = year1)); simpl; [apply IH|].
  destruct (bool_decide (year r = year2)); apply IH.
Qed.



Lemma selected_same_year year1 l : selected (in_year2 year1 year1) l = [].
Proof.
  unfold selected. induction l as [|r l IH]; [done|].
  rewrite filter_cons, decide_False; [done|].
  unfold in_year2. by destruct (bool_decide (year r = year1)).
Qed.


Lemma changes_lookup (year1_data year2_data : gmap string Z) names changes s e :
  changes_of year1_data year2_data names = Ok changes ->
  changes !! s = Some e ->
  species_change year1_data year2_data s = Ok e.
Proof.
  revert changes. induction names as [|k names IH]; intros changes; simpl.
  - intros [= <-]. by rewrite lookup_empty.
  - destruct (changes_of _ _ names) as [out|]; [|done]. cbn.
    destruct (species_change year1_data year2_data k) as [entry|] eqn:E; [|done]. cbn.
    intros [= <-]. rewrite lookup_insert. case_decide as Hk.
    + subst k. by intros [= <-].
    + by apply IH.
Qed.

Lemma species_change_pounds (year1_data year2_data : gmap string Z) s e :
  species_change year1_data year2_data s = Ok e ->
  Species.year1_pounds e = default 0 (year1_data !! s) ∧
  Species.year2_pounds e = default 0 (year2_data !! s) ∧
  Species.change e = default 0 (year2_data !! s) - default 0 (year1_data !! s).
Proof.
  unfold species_change. destruct (pct_change _ _); [|done]. cbn.
  by intros [= <-].
Qed.

Lemma compare_species_unfold fish_list year1 year2 c :
  compare_species_between_years fish_list year1 year2 = Ok c ->
  Species.year1_total c
  = values_total (overwrite (in_year1 year1) species pounds fish_list ∅) ∧
  Species.year2_total c
  = values_total (overwrite (in_year2 year1 year2) species pounds fish_list ∅) ∧
  ∀ s e, Species.species_changes c !! s = Some e ->
         species_change
           (overwrite (in_year1 year1) species pounds fish_list ∅)
           (overwrite (in_year2 year1 year2) species pounds fish_list ∅) s
         = Ok e.
Proof.
  unfold compare_species_between_years. rewrite species_data_folds.
  intros Hc.
  destruct (changes_of _ _ _) as [changes|] eqn:E; [|done]. cbn in Hc.
  injection Hc as <-. simpl. unfold sum_values. rewrite !sum_int_total.
  repeat split. intros s e. by apply (changes_lookup _ _ _ _ _ _ E).
Qed.




Lemma filter_none {B} (P : B -> Prop) `{∀ x, Decision (P x)} (l : list B) :
  (∀ x, x ∈ l -> ¬ P x) -> filter P l = [].
Proof.
  induction l as [|a l IH]; intros Hall; [done|].
  rewrite filter_cons, decide_False by (apply Hall; left).
  apply IH. intros x Hx. apply Hall. by right.
Qed.


Lemma bind_Ok {A B} (a : A) (k : A -> result B) : (Ok a ≫= k) = k a.
Proof. done. Qed.

Lemma total_cons x xs : total (x :: xs) = x + total xs.
Proof. done. Qed.

Lemma changes_of_cons (year1_data year2_data : gmap string Z) k names :
  changes_of year1_data year2_data (k :: names)
  = changes_of year1_data year2_data names ≫= fun changes =>
    species_change year1_data year2_data k ≫= fun entry =>
    Ok (<[k := entry]> changes).
Proof. done. Qed.

Lemma changes_of_dom (year1_data year2_data : gmap string Z) names changes :
  changes_of year1_data year2_data names = Ok changes ->
  dom changes = list_to_set names.
Proof.
  revert changes. induction names as [|k names IH]; intros changes; simpl.
  - intros [= <-]. by rewrite dom_empty_L.
  - destruct (changes_of _ _ names) as [out|]; [|done]. rewrite bind_Ok.
    destruct (species_change year1_data year2_data k) as [entry|]; [|done].
    rewrite bind_Ok. intros [= <-]. by rewrite dom_insert_L, (IH out).
Qed.


Lemma total_of_defaults (d : gmap string Z) (names : list string) :
  NoDup names ->
  dom d ⊆ list_to_set names ->
  total ((fun s => default 0 (d !! s)) <$> names) = values_total d.
Proof.
  revert d. induction names as [|k names IH]; intros d Hn Hd; simpl.
  - assert (d = ∅) as ->.
    { apply dom_empty_iff_L, elem_of_equiv_empty_L. intros s Hs.
      apply Hd in Hs. by apply elem_of_empty in Hs. }
    unfold values_total. by rewrite map_to_list_empty.
  - apply NoDup_cons in Hn as [Hk Hn].
    rewrite (values_total_delete d k), <- (IH (delete k d)); [|done|].
    + f_equal. f_equal. apply list_fmap_ext. intros i s Hs.
      rewrite lookup_delete_ne; [done|]. intros ->.
      apply Hk. by eapply list_elem_of_lookup_2.
    + intros s. rewrite dom_delete_L, elem_of_difference, elem_of_singleton.
      intros [Hs Hne]. apply Hd in Hs. simpl in Hs.
      apply elem_of_union in Hs as [Hs|Hs]; [|done].
      by apply elem_of_singleton in Hs.
Qed.

Lemma overwrite_dom {A} (sel : A -> bool) key val (l : list A) s :
  s ∈ dom (overwrite sel key val l ∅) ↔ ∃ r, r ∈ l ∧ sel r = true ∧ key r = s.
Proof.
  rewrite elem_of_dom, overwrite_lookup, lookup_empty.
  destruct (last _) as [r|] eqn:E.
  - split; [|by eexists]. intros _. apply last_Some in E as [l' E].
    assert (r ∈ filter (fun r => key r = s) (selected sel l)) as Hr
      by (rewrite E; apply elem_of_app; right; left).
    apply list_elem_of_filter in Hr as [Hk Hr].
    apply list_elem_of_filter in Hr as [Hs Hr]. by exists r.
  - split; [by intros [? ?]|]. intros (r & Hr & Hs & Hk).
    apply last_None in E.
    assert (r ∈ filter (fun r => key r = s) (selected sel l)) as Hin
      by (apply list_elem_of_filter; split; [done|];
          by apply list_elem_of_filter).
    rewrite E in Hin. by apply elem_of_nil in Hin.
Qed.






(** ** The same year twice *)

(** The [elif] keeps every landing of the year out of [year2_data] when
    both years are the same. *)
Lemma species_data_same_year fish_list y :
  (species_data fish_list y y).2 = ∅.
Proof.
  rewrite species_data_folds. simpl. apply map_eq. intros s.
  by rewrite overwrite_lookup, selected_same_year, lookup_empty.
Qed.

(** C1. [compare_species_between_years] on the single landing
    (Finfish, 2000, Anchovy, 100) with the year 2000 given twice reports,
    for Anchovy, [year2_pounds = 0], [change = -100] and
    [percent_change = -100.0], and [year2_total = 0]: not the change 0 and
    the percentage 0 of a year compared with itself. *)
Theorem compare_species_same_year_anchovy :
  compare_species_between_years [landing "Finfish" 2000 "Anchovy" 100] 2000 2000
  = Ok {| Species.year1 := 2000;
          Species.year2 := 2000;
          Species.year1_total := 100;
          Species.year2_total := 0;
          Species.species_changes :=
            {[ "Anchovy" :=
                 {| Species.year1_pounds := 100;
                    Species.year2_pounds := 0;
                    Species.change := -100;
                    Species.percent_change := Some (Py.nearest (-100)) |} ]} |}.
Proof. by vm_compute. Qed.

(** ** Constant oxygen *)

(** C2. With yearly totals 100, 200 and 400 pounds and the oxygen average
    7.4 in each of the three common years, [calc_pearson] returns the
    coefficient 6162624662975337 * 2^-106 (about 7.6e-17) with the count
    3, under either summation of the builtin [sum]: the mean of the three
    equal values is computed as the next float above 7.4, the denominator
    is not zero, and the division is made.  The squares are those of a C
    library that rounds them correctly, [Py.rounded_square]. *)
Theorem calc_pearson_constant_oxygen :
  average_oxygen_per_year constant_water
  = Ok (<[2000 := decimal 74 10]>
          (<[2001 := decimal 74 10]> (<[2002 := decimal 74 10]> ∅)))
  ∧ calc_pearson Py.sum_float_sequential Py.rounded_square rising_fish
      constant_water None
    = Ok (S754_finite false 6162624662975337 (-106), 3)
  ∧ calc_pearson Py.sum_float_compensated Py.rounded_square rising_fish
      constant_water None
    = Ok (S754_finite false 6162624662975337 (-106), 3)
  ∧ Py.feqb (S754_finite false 6162624662975337 (-106)) Py.fzero = false.
Proof. repeat split; by vm_compute. Qed.

(** * Further properties *)

(** ** Yearly totals: order, batches, filters *)

Lemma total_app xs ys : total (xs ++ ys) = total xs + total ys.
Proof. induction xs as [|x xs IH]; simpl; [done|]. rewrite IH. lia. Qed.

#[global] Instance year_total_Permutation : Proper ((≡ₚ) ==> (=)) year_total.
Proof.
  intros xs ys Hp. destruct xs as [|x xs], ys as [|y ys]; [done| | |].
  - by apply Permutation_nil_l in Hp.
  - by apply Permutation_nil_r in Hp.
  - unfold year_total. by rewrite Hp.
Qed.

Lemma year_total_app xs ys :
  year_total (xs ++ ys)
  = union_with (fun a b => Some (a + b)) (year_total xs) (year_total ys).
Proof.
  destruct xs as [|x xs]; [by destruct ys|].
  destruct ys as [|y ys]; [by rewrite app_nil_r|].
  unfold year_total. simpl. f_equal.
  rewrite total_app. simpl. lia.
Qed.

Lemma total_fish_landings_per_year_year_total fish_list category y :
  total_fish_landings_per_year fish_list category !! y
  = year_total (pounds <$> qualifying category y fish_list).
Proof.
  rewrite total_fish_landings_per_year_lookup.
  by destruct (qualifying category y fish_list).
Qed.

Lemma overall_as_values_total fish_list category :
  total_fish_category_landings_overall fish_list category
  = values_total (total_fish_landings_per_year fish_list category).
Proof. symmetry. by apply total_overall_from. Qed.

(** X1. [get_landings_by_year] builds the dict that
    [total_fish_landings_per_year] builds without a filter: each year of a
    landing is mapped to the sum of the pounds of that year's landings, and
    no other year has an entry. *)
Theorem get_landings_by_year_spec landings :
  get_landings_by_year landings = total_fish_landings_per_year landings None
  ∧ ∀ y, get_landings_by_year landings !! y
         = year_total (pounds <$> landings_in y landings).
Proof.
  split; [done|]. intros y.
  change (get_landings_by_year landings)
    with (total_fish_landings_per_year landings None).
  by rewrite total_fish_landings_per_year_year_total, qualifying_None.
Qed.

Lemma total_fish_landings_per_year_Permutation fish_list fish_list' category :
  fish_list ≡ₚ fish_list' ->
  total_fish_landings_per_year fish_list category
  = total_fish_landings_per_year fish_list' category.
Proof.
  intros Hp. apply map_eq. intros y.
  rewrite !total_fish_landings_per_year_year_total.
  unfold qualifying. by rewrite Hp.
Qed.

(** X2. The order of the landings does not matter to the totals: two
    lists with the same landings in another order give the same dict of
    yearly totals and the same grand total, under every filter. *)
Theorem totals_ignore_order fish_list fish_list' category :
  fish_list ≡ₚ fish_list' ->
  total_fish_landings_per_year fish_list category
  = total_fish_landings_per_year fish_list' category
  ∧ total_fish_category_landings_overall fish_list category
    = total_fish_category_landings_overall fish_list' category.
Proof.
  intros Hp.
  pose proof (total_fish_landings_per_year_Permutation _ _ category Hp) as Heq.
  split; [done|].
  by rewrite !overall_as_values_total, Heq.
Qed.

Lemma totals_ignore_order_witness :
  total_fish_landings_per_year (reverse sample_fish) (Some "Finfish")
  = total_fish_landings_per_year sample_fish (Some "Finfish").
Proof.
  apply (proj1 (totals_ignore_order (reverse sample_fish) sample_fish
                  (Some "Finfish") ltac:(apply reverse_Permutation))).
Defined.

(** X3. Landings that arrive in two batches: the totals of the
    concatenated list are the totals of the batches added year by year (a
    year present in one batch only keeps that batch's total), and the grand
    totals add up. *)
Theorem totals_of_batches fish_list1 fish_list2 category :
  total_fish_landings_per_year (fish_list1 ++ fish_list2) category
  = union_with (fun a b => Some (a + b))
      (total_fish_landings_per_year fish_list1 category)
      (total_fish_landings_per_year fish_list2 category)
  ∧ total_fish_category_landings_overall (fish_list1 ++ fish_list2) category
    = total_fish_category_landings_overall fish_list1 category
      + total_fish_category_landings_overall fish_list2 category.
Proof.
  split.
  - apply map_eq. intros y.
    rewrite lookup_union_with, !total_fish_landings_per_year_year_total.
    unfold qualifying. by rewrite filter_app, fmap_app, year_total_app.
  - unfold total_fish_category_landings_overall. rewrite fold_left_app.
    generalize (fold_left
      (fun total_pounds landing =>
         if skips category landing then total_pounds
         else total_pounds + pounds landing) fish_list1 0).
    intros a. 
    assert (H : ∀ l b,
      fold_left (fun total_pounds landing =>
         if skips category landing then total_pounds
         else total_pounds + pounds landing) l b
      = b + fold_left (fun total_pounds landing =>
         if skips category landing then total_pounds
         else total_pounds + pounds landing) l 0).
    { induction l as [|r l IH]; intros b; simpl; [lia|].
      destruct (skips category r); [apply IH|].
      rewrite IH, (IH (0 + pounds r)). lia. }
    apply H.
Qed.

Lemma total_nonneg (xs : list Z) : (∀ x, x ∈ xs -> 0 <= x) -> 0 <= total xs.
Proof.
  induction xs as [|x xs IH]; intros Hall; simpl; [lia|].
  assert (0 <= x) by (apply Hall; left).
  assert (0 <= total xs) by (apply IH; intros; apply Hall; by right).
  unfold total in *. lia.
Qed.

Lemma total_filter_le (P : FishLanding -> Prop) `{∀ r, Decision (P r)}
    (l : list FishLanding) :
  (∀ r, r ∈ l -> 0 <= pounds r) ->
  total (pounds <$> filter P l) <= total (pounds <$> l).
Proof.
  induction l as [|r l IH]; intros Hall; [done|].
  assert (0 <= pounds r) by (apply Hall; left).
  assert (total (pounds <$> filter P l) <= total (pounds <$> l))
    by (apply IH; intros; apply Hall; by right).
  rewrite filter_cons. case_decide; rewrite ?fmap_cons; unfold total in *;
    simpl; lia.
Qed.

Lemma qualifying_passes category y l :
  qualifying category y l = filter (passes category) (landings_in y l).
Proof.
  unfold qualifying, landings_in. rewrite list_filter_filter.
  apply list_filter_iff. intros x. tauto.
Qed.

Lemma overall_from category l a :
  fold_left
    (fun total_pounds landing =>
       if skips category landing then total_pounds
       else total_pounds + pounds landing) l a
  = a + total (pounds <$> filter (passes category) l).
Proof.
  revert a. induction l as [|r l IH]; intros a; simpl; [lia|].
  rewrite IH, filter_cons. destruct (skips category r) eqn:Hs.
  - rewrite decide_False; [done|]. intros Hp. apply skips_passes in Hp. congruence.
  - apply skips_passes in Hs. rewrite decide_True by done.
    rewrite fmap_cons. unfold total. simpl. lia.
Qed.

Lemma overall_as_total fish_list category :
  total_fish_category_landings_overall fish_list category
  = total (pounds <$> filter (passes category) fish_list).
Proof. unfold total_fish_category_landings_overall. by rewrite overall_from. Qed.

(** X4. A category filter only removes: with weights that are not
    negative, every year of the filtered series is a year of the unfiltered
    one with a total that is no smaller, and the filtered grand total lies
    between 0 and the unfiltered one. *)
Theorem filter_only_removes fish_list category :
  (∀ r, r ∈ fish_list -> 0 <= pounds r) ->
  (∀ y t, total_fish_landings_per_year fish_list category !! y = Some t ->
          ∃ t', total_fish_landings_per_year fish_list None !! y = Some t'
                ∧ 0 <= t <= t')
  ∧ 0 <= total_fish_category_landings_overall fish_list category
      <= total_fish_category_landings_overall fish_list None.
Proof.
  intros Hpos.
  assert (Hnn : ∀ (P : FishLanding -> Prop) `{∀ r, Decision (P r)} l,
            (∀ r, r ∈ l -> r ∈ fish_list) ->
            0 <= total (pounds <$> filter P l)).
  { intros P ? l Hl. apply total_nonneg. intros x Hx.
    apply list_elem_of_fmap in Hx as (r & -> & Hr).
    apply list_elem_of_filter in Hr as [_ Hr]. auto. }
  split.
  - intros y t.
    rewrite !total_fish_landings_per_year_year_total, qualifying_None,
      qualifying_passes.
    assert (Hin : ∀ r, r ∈ landings_in y fish_list -> r ∈ fish_list)
      by (intros r Hr; by apply list_elem_of_filter in Hr as [_ ?]).
    pose proof (total_filter_le (passes category) (landings_in y fish_list)
                  (fun r Hr => Hpos r (Hin r Hr))) as Hle.
    pose proof (Hnn (passes category) _ _ Hin) as H0.
    destruct (landings_in y fish_list) as [|r rs]; [done|].
    destruct (filter (passes category) (r :: rs)) as [|q qs]; [done|].
    intros [= <-]. eexists. split; [done|]. done.
  - rewrite !overall_as_total. split; [by apply Hnn|].
    etrans; [by apply total_filter_le|].
    rewrite (list_filter_iff _ (fun _ => True)) by done.
    assert (Hall : ∀ l : list FishLanding, filter (fun _ => True) l = l).
    { induction l as [|r l IH]; [done|]. by rewrite filter_cons, decide_True, IH. }
    by rewrite Hall.
Qed.

Lemma filter_only_removes_witness :
  0 <= total_fish_category_landings_overall sample_fish (Some "Finfish")
    <= total_fish_category_landings_overall sample_fish None.
Proof.
  apply (filter_only_removes sample_fish (Some "Finfish")).
  intros r Hr. unfold sample_fish in Hr.
  repeat (apply elem_of_cons in Hr as [->|Hr]; [by vm_compute|]).
  by apply elem_of_nil in Hr.
Defined.

(** ** Oxygen samples grouped by year *)

Lemma group_lookup by_year year value y :
  group by_year year value !! y =
  if decide (year = y) then Some (default [] (by_year !! year) ++ [value])
  else by_year !! y.
Proof.
  unfold group. rewrite lookup_insert. case_decide as Hy.
  - f_equal. f_equal. destruct (by_year !! year) eqn:E.
    + by rewrite lookup_total_alt, E.
    + by rewrite lookup_total_alt, lookup_insert_eq.
  - destruct (by_year !! year); [done|]. by rewrite lookup_insert_ne.
Qed.

Lemma group_fold {A} (key : A -> Z) (val : A -> Py.float) l by_year y :
  fold_left (fun by_year r => group by_year (key r) (val r)) l by_year !! y =
  match filter (fun r => key r = y) l with
  | [] => by_year !! y
  | rs => Some (default [] (by_year !! y) ++ (val <$> rs))
  end.
Proof.
  revert by_year. induction l as [|a l IH]; intros by_year; [done|].
  simpl. rewrite IH, filter_cons, group_lookup. case_decide as Hy.
  - subst y. destruct (filter _ l); simpl; [done|].
    by rewrite <- app_assoc.
  - done.
Qed.

Lemma get_oxygen_records_by_year_fold records :
  get_oxygen_records_by_year records
  = fold_left
      (fun by_year r =>
         group by_year (PollutionRecords.year r)
           (PollutionRecords.dissolved_oxygen r)) records ∅.
Proof. done. Qed.

(** X5. [get_oxygen_records_by_year] maps each year that has a sample to
    the dissolved-oxygen values of that year's samples, in the order of the
    list, and has no entry (not an empty list) for a year without a
    sample. *)
Theorem get_oxygen_records_by_year_lookup records y :
  get_oxygen_records_by_year records !! y =
  match samples_in y records with
  | [] => None
  | rs => Some (PollutionRecords.dissolved_oxygen <$> rs)
  end.
Proof.
  rewrite get_oxygen_records_by_year_fold.
  rewrite (group_fold PollutionRecords.year PollutionRecords.dissolved_oxygen).
  rewrite lookup_empty. fold (samples_in y records).
  by destruct (samples_in y records).
Qed.

Lemma grouped_values_insert (d : gmap Z (list Py.float)) k vs :
  grouped_values (<[k := vs]> d) ≡ₚ vs ++ grouped_values (delete k d).
Proof.
  unfold grouped_values. rewrite <- insert_delete_eq.
  rewrite map_to_list_insert by apply lookup_delete_eq. done.
Qed.

Lemma grouped_values_delete (d : gmap Z (list Py.float)) k :
  grouped_values d ≡ₚ default [] (d !! k) ++ grouped_values (delete k d).
Proof.
  destruct (d !! k) as [vs|] eqn:E; simpl.
  - rewrite <- (insert_delete_id d k vs E) at 1. rewrite grouped_values_insert.
    by rewrite delete_delete_eq.
  - by rewrite delete_id.
Qed.

Lemma grouped_values_group d k v :
  grouped_values (group d k v) ≡ₚ grouped_values d ++ [v].
Proof.
  rewrite (grouped_values_delete d k), (grouped_values_delete (group d k v) k).
  rewrite group_lookup, decide_True by done. simpl.
  replace (delete k (group d k v)) with (delete k d).
  - rewrite <- !app_assoc. f_equiv. apply Permutation_app_comm.
  - unfold group. rewrite delete_insert_eq. destruct (d !! k); [done|].
    by rewrite delete_insert_eq.
Qed.

(** X6. No sample is lost or repeated by the grouping: the groups of
    [get_oxygen_records_by_year], taken together, hold the values of the
    records up to order, so their sizes add up to the number of records. *)
Theorem get_oxygen_records_by_year_partition records :
  grouped_values (get_oxygen_records_by_year records)
  ≡ₚ PollutionRecords.dissolved_oxygen <$> records
  ∧ length (grouped_values (get_oxygen_records_by_year records))
    = length records.
Proof.
  assert (H : ∀ l d,
    grouped_values
      (fold_left
         (fun by_year r =>
            group by_year (PollutionRecords.year r)
              (PollutionRecords.dissolved_oxygen r)) l d)
    ≡ₚ grouped_values d ++ (PollutionRecords.dissolved_oxygen <$> l)).
  { induction l as [|r l IH]; intros d; simpl; [by rewrite app_nil_r|].
    rewrite IH, grouped_values_group, <- app_assoc. done. }
  assert (Hp : grouped_values (get_oxygen_records_by_year records)
               ≡ₚ PollutionRecords.dissolved_oxygen <$> records).
  { rewrite get_oxygen_records_by_year_fold, H. unfold grouped_values.
    by rewrite map_to_list_empty. }
  split; [done|]. by rewrite Hp, length_fmap.
Qed.

Lemma accumulate_float_lookup (d : gmap Z Py.float) key amount y :
  accumulate_float d key amount !! y =
  if decide (key = y)
  then Some (Py.fadd (default Py.fzero (d !! key)) amount)
  else d !! y.
Proof.
  unfold accumulate_float. rewrite lookup_insert. case_decide as Hy.
  - f_equal. f_equal. destruct (d !! key) eqn:E; [by rewrite E|].
    by rewrite lookup_insert_eq.
  - destruct (d !! key); [done|]. by rewrite lookup_insert_ne.
Qed.

Lemma accumulate_float_fold {A} (key : A -> Z) (val : A -> Py.float) l
    (m : gmap Z Py.float) y :
  fold_left (fun totals r => accumulate_float totals (key r) (val r)) l m !! y =
  match filter (fun r => key r = y) l with
  | [] => m !! y
  | rs => Some (fold_left Py.fadd (val <$> rs) (default Py.fzero (m !! y)))
  end.
Proof.
  revert m. induction l as [|a l IH]; intros m; [done|].
  simpl. rewrite IH, filter_cons, accumulate_float_lookup. case_decide as Hy.
  - subst y. by destruct (filter _ l).
  - done.
Qed.

Lemma oxygen_groups_of_filter records y :
  get_oxygen_records_by_year records !! y =
  match filter (fun r => PollutionRecords.year r = y) records with
  | [] => None
  | rs => Some (PollutionRecords.dissolved_oxygen <$> rs)
  end.
Proof.
  rewrite get_oxygen_records_by_year_fold.
  rewrite (group_fold PollutionRecords.year PollutionRecords.dissolved_oxygen).
  rewrite lookup_empty. by destruct (filter _ records).
Qed.

(** X7. The average of a year is the sum of that year's group, added one
    value after the other from 0.0 as the builtin [sum] of CPython up to
    3.11 does, divided by the size of the group: what
    [average_oxygen_per_year] returns for a year is
    [sum(values) / len(values)] for the [values] that
    [get_oxygen_records_by_year] has for it, and both have the same
    years. *)
Theorem average_oxygen_per_year_of_groups water_list averages :
  average_oxygen_per_year water_list = Ok averages ->
  dom averages = dom (get_oxygen_records_by_year water_list)
  ∧ ∀ y a, averages !! y = Some a ->
      ∃ values, get_oxygen_records_by_year water_list !! y = Some values
        ∧ values ≠ []
        ∧ Py.float_truediv_int (Py.sum_float_sequential values)
            (Z.of_nat (length values)) = Ok a.
Proof.
  rewrite average_oxygen_unfold. intros Hq.
  assert (Hvals : ∀ y a, averages !! y = Some a ->
      ∃ values, get_oxygen_records_by_year water_list !! y = Some values
        ∧ values ≠ []
        ∧ Py.float_truediv_int (Py.sum_float_sequential values)
            (Z.of_nat (length values)) = Ok a).
  { intros y a Ha.
    apply (quotients_lookup _ _ _ _ _ _ Hq) in Ha as (t & c & Ht & Hc & Ha).
    rewrite accumulate_float_fold, lookup_empty in Ht.
    rewrite counts_lookup in Hc.
    rewrite oxygen_groups_of_filter.
    destruct (filter _ water_list) as [|r rs]; [done|].
    injection Ht as <-. injection Hc as <-.
    eexists. split; [done|]. split; [done|].
    by rewrite length_fmap. }
  split; [|done].
  apply set_eq. intros y. rewrite !elem_of_dom. split.
  - intros [a Ha]. destruct (Hvals y a Ha) as (vs & -> & _). by eexists.
  - intros [vs Hvs]. rewrite <- elem_of_dom, (quotients_dom _ _ _ _ Hq).
    apply float_totals_dom. right.
    rewrite oxygen_groups_of_filter in Hvs.
    destruct (filter _ water_list) as [|r rs] eqn:E; [done|].
    assert (r ∈ filter (fun record => PollutionRecords.year record = y) water_list)
      as Hr by (rewrite E; left).
    apply list_elem_of_filter in Hr as [? ?]. eauto.
Qed.

Lemma average_oxygen_per_year_of_groups_witness :
  ∃ values, get_oxygen_records_by_year sample_water !! 2002 = Some values
    ∧ values ≠ []
    ∧ Py.float_truediv_int (Py.sum_float_sequential values)
        (Z.of_nat (length values)) = Ok (Py.nearest 6).
Proof.
  apply (proj2 (average_oxygen_per_year_of_groups sample_water
                  (<[2000 := Py.nearest 5]>
                     (<[2001 := Py.nearest 5]> (<[2002 := Py.nearest 6]> ∅)))
                  ltac:(by vm_compute))).
  by vm_compute.
Defined.

(** ** Low oxygen *)

Lemma compare_cont_spec (m1 m2 : positive) :
  CompareSpec (m1 = m2) (m1 < m2)%positive (m2 < m1)%positive
    (PosDef.Pos.compare_cont Eq m1 m2).
Proof. apply Pos.compare_spec. Qed.

Ltac order_cases :=
  repeat match goal with
  | |- context [Z.compare ?a ?b] =>
      destruct (Z.compare_spec a b); try subst
  | H : context [Z.compare ?a ?b] |- _ =>
      destruct (Z.compare_spec a b); try subst
  | |- context [PosDef.Pos.compare_cont Eq ?a ?b] =>
      destruct (compare_cont_spec a b); try subst
  | H : context [PosDef.Pos.compare_cont Eq ?a ?b] |- _ =>
      destruct (compare_cont_spec a b); try subst
  end.

(** [a < b] and [b <= c] give [a < c] on floats, none of which is NaN
    when the two tests hold. *)
Lemma SFltb_leb_trans (a b c : Py.float) :
  SFltb a b = true -> SFleb b c = true -> SFltb a c = true.
Proof.
  unfold SFltb, SFleb, SFcompare.
  destruct a as [sa|sa| |sa ma ea], b as [sb|sb| |sb mb eb],
    c as [sc|sc| |sc mc ec]; try done;
    try destruct sa; try destruct sb; try destruct sc; try done;
    intros H1 H2; order_cases; simpl in *; try done; try lia.
Qed.

(** X8. [is_low_oxygen] grows with the threshold: a sample that is low
    at a threshold is low at every threshold that is not smaller.  A sample
    whose value is NaN is low at no threshold, and without a threshold the
    test is made against 5.0. *)
Theorem is_low_oxygen_threshold :
  (∀ record t t',
     is_low_oxygen record (Some t) = true -> SFleb t t' = true ->
     is_low_oxygen record (Some t') = true)
  ∧ (∀ record threshold,
       PollutionRecords.dissolved_oxygen record = S754_nan ->
       is_low_oxygen record threshold = false)
  ∧ (∀ record,
       is_low_oxygen record None = is_low_oxygen record (Some (Py.nearest 5))).
Proof.
  split; [|split].
  - intros record t t'. unfold is_low_oxygen. simpl. apply SFltb_leb_trans.
  - intros record threshold Hnan. unfold is_low_oxygen. by rewrite Hnan.
  - done.
Qed.

Lemma is_low_oxygen_threshold_witness :
  is_low_oxygen (sample "Station A" "2000-01-01 00:00:00" (decimal 45 10) 2000)
    (Some (Py.nearest 6)) = true.
Proof.
  apply (proj1 is_low_oxygen_threshold _ (Py.nearest 5)); by vm_compute.
Defined.

(** ** Comparison of two yearly oxygen averages *)

Lemma positive_not_zero (f : Py.float) :
  SFltb Py.fzero f = true -> Py.feqb f Py.fzero = false.
Proof. by destruct f as [[]|[]| |[] m e]. Qed.

Lemma fmap_Ok {A B} (f : A -> B) (a : A) : f <$> Ok a = Ok (f a).
Proof. done. Qed.

Lemma float_of_int_0 : Py.float_of_int 0 = Ok Py.fzero.
Proof. by vm_compute. Qed.

Lemma float_of_int_100 : Py.float_of_int 100 = Ok (Py.nearest 100).
Proof. by vm_compute. Qed.

(** The percentage of [compare_oxygen_levels_between_years] for a first
    average that is a positive float. *)
Lemma oxygen_percent (f : Py.float) (avg2 : Py.number) :
  SFltb Py.fzero f = true ->
  (avg2 = Py.Int 0 ∨ ∃ g, avg2 = Py.Float g) ->
  ∃ p, (d ← Py.sub avg2 (Py.Float f);
        q ← Py.truediv d (Py.Float f);
        p ← Py.mul_int q 100;
        Ok (Some p)) = Ok (Some (Py.Float p)).
Proof.
  intros Hpos [->|[g ->]];
    unfold Py.sub, Py.int_sub_float, Py.truediv, Py.mul_int, Py.float_mul_int,
      Py.float_truediv;
    rewrite ?float_of_int_0, ?bind_Ok, ?fmap_Ok, ?bind_Ok,
      (positive_not_zero f Hpos), ?fmap_Ok, ?bind_Ok, float_of_int_100,
      ?bind_Ok, ?fmap_Ok, ?bind_Ok;
    by eexists.
Qed.

Lemma average_or_zero_cases averages y :
  average_or_zero averages y = Py.Int 0
  ∨ ∃ g, average_or_zero averages y = Py.Float g.
Proof. unfold average_or_zero. destruct (averages !! y); eauto. Qed.

Lemma sub_averages averages y1 y2 :
  ∃ change,
    Py.sub (average_or_zero averages y2) (average_or_zero averages y1)
    = Ok change.
Proof.
  unfold average_or_zero.
  destruct (averages !! y1), (averages !! y2);
    unfold Py.sub, Py.int_sub_float;
    rewrite ?float_of_int_0, ?bind_Ok, ?fmap_Ok; by eexists.
Qed.

(** X9. [compare_oxygen_levels_between_years] raises nothing on a Python
    list, whichever years are asked for.  A year without a sample enters
    as the [int] 0.  The percentage is [None] exactly when the first year
    has no average above 0 (no sample, an average of 0 or less, or NaN);
    otherwise it is a [float]. *)
Theorem compare_oxygen_levels_between_years_returns water_list year1 year2 :
  Z.of_nat (length water_list) <= Py.sys_maxsize ->
  ∃ averages c,
    average_oxygen_per_year water_list = Ok averages
    ∧ compare_oxygen_levels_between_years water_list year1 year2 = Ok c
    ∧ Oxygen.year1_avg_oxygen c = average_or_zero averages year1
    ∧ Oxygen.year2_avg_oxygen c = average_or_zero averages year2
    ∧ (averages !! year1 = None -> Oxygen.year1_avg_oxygen c = Py.Int 0)
    ∧ (Oxygen.percent_change c = None ↔
       ¬ ∃ f, averages !! year1 = Some f ∧ SFltb Py.fzero f = true)
    ∧ (∀ p, Oxygen.percent_change c = Some p -> ∃ q, p = Py.Float q).
Proof.
  intros Hlen.
  destruct (average_oxygen_per_year_keys water_list Hlen) as (averages & Hm & _).
  exists averages. unfold compare_oxygen_levels_between_years.
  rewrite Hm, bind_Ok.
  destruct (sub_averages averages year1 year2) as [change Hchange].
  destruct (Py.is_positive (average_or_zero averages year1)) eqn:Hpos.
  - assert (∃ f, averages !! year1 = Some f ∧ SFltb Py.fzero f = true)
      as (f & Hf & Hfpos).
    { unfold average_or_zero in Hpos. destruct (averages !! year1); [|done].
      eauto. }
    assert (average_or_zero averages year1 = Py.Float f) as Havg
      by (unfold average_or_zero; by rewrite Hf).
    destruct (oxygen_percent f (average_or_zero averages year2) Hfpos
                (average_or_zero_cases averages year2)) as [p Hp].
    rewrite Havg in *. rewrite Hp, Hchange, !bind_Ok.
    eexists. split; [done|]. split; [done|]. simpl.
    split; [done|]. split; [done|]. split; [by rewrite Hf|].
    split; [|intros p' [= <-]; eauto].
    split; [done|]. intros Hn. destruct Hn. eauto.
  - rewrite Hchange, !bind_Ok.
    eexists. split; [done|]. split; [done|]. simpl.
    split; [done|]. split; [done|].
    split; [intros Hnone; unfold average_or_zero; by rewrite Hnone|].
    split; [|done].
    split; [|done]. intros _ (f & Hf & Hfpos). unfold average_or_zero in Hpos.
    rewrite Hf in Hpos. simpl in Hpos. congruence.
Qed.

Lemma compare_oxygen_levels_between_years_returns_witness :
  ∃ averages c,
    average_oxygen_per_year sample_water = Ok averages
    ∧ compare_oxygen_levels_between_years sample_water 1999 2002 = Ok c
    ∧ Oxygen.year1_avg_oxygen c = average_or_zero averages 1999
    ∧ Oxygen.year2_avg_oxygen c = average_or_zero averages 2002
    ∧ (averages !! 1999 = None -> Oxygen.year1_avg_oxygen c = Py.Int 0)
    ∧ (Oxygen.percent_change c = None ↔
       ¬ ∃ f, averages !! 1999 = Some f ∧ SFltb Py.fzero f = true)
    ∧ (∀ p, Oxygen.percent_change c = Some p -> ∃ q, p = Py.Float q).
Proof.
  apply (compare_oxygen_levels_between_years_returns sample_water 1999 2002).
  by vm_compute.
Defined.

Lemma fsub_diag s m e :
  Py.fsub (S754_finite s m e) (S754_finite s m e) = Py.fzero.
Proof.
  unfold Py.fsub, SFsub. by rewrite Z.sub_diag.
Qed.

(** X10. A year compared with itself: when its average is a positive
    finite float, [compare_oxygen_levels_between_years] reports the change
    0.0 and the percentage 0.0 (where [compare_species_between_years]
    reports a loss of everything). *)
Theorem compare_oxygen_levels_same_year water_list y m e averages :
  average_oxygen_per_year water_list = Ok averages ->
  averages !! y = Some (S754_finite false m e) ->
  compare_oxygen_levels_between_years water_list y y
  = Ok {| Oxygen.year1 := y;
          Oxygen.year2 := y;
          Oxygen.year1_avg_oxygen := Py.Float (S754_finite false m e);
          Oxygen.year2_avg_oxygen := Py.Float (S754_finite false m e);
          Oxygen.change := Py.Float Py.fzero;
          Oxygen.percent_change := Some (Py.Float Py.fzero) |}.
Proof.
  intros Hm Hy. unfold compare_oxygen_levels_between_years, average_or_zero.
  rewrite Hm, bind_Ok, Hy.
  unfold Py.sub. rewrite fsub_diag, !bind_Ok.
  done.
Qed.

Lemma compare_oxygen_levels_same_year_witness :
  compare_oxygen_levels_between_years sample_water 2002 2002
  = Ok {| Oxygen.year1 := 2002;
          Oxygen.year2 := 2002;
          Oxygen.year1_avg_oxygen := Py.Float (Py.nearest 6);
          Oxygen.year2_avg_oxygen := Py.Float (Py.nearest 6);
          Oxygen.change := Py.Float Py.fzero;
          Oxygen.percent_change := Some (Py.Float Py.fzero) |}.
Proof.
  apply (compare_oxygen_levels_same_year sample_water 2002 6755399441055744 (-50)
           (<[2000 := Py.nearest 5]>
              (<[2001 := Py.nearest 5]> (<[2002 := Py.nearest 6]> ∅))));
    by vm_compute.
Defined.

(** ** The joined rows and the number of common years *)

Lemma mapM_Ok {A B} (f : A -> result B) (P : A -> B -> Prop) (l : list A) :
  (∀ x, x ∈ l -> ∃ y, f x = Ok y ∧ P x y) ->
  ∃ k, mapM f l = Ok k ∧ Forall2 P l k.
Proof.
  induction l as [|x l IH]; intros Hf.
  - exists []. by split.
  - destruct (Hf x) as (y & Hy & HP); [left|].
    destruct IH as (k & Hk & HF); [intros; apply Hf; by right|].
    exists (y :: k). split; [|by constructor].
    simpl. by rewrite Hy, bind_Ok, Hk.
Qed.

Lemma mapM_Ok_length {A B} (f : A -> result B) l k :
  mapM f l = Ok k -> length k = length l.
Proof.
  revert k. induction l as [|x l IH]; intros k; simpl.
  - by intros [= <-].
  - destruct (f x); [|done]. rewrite bind_Ok.
    destruct (mapM f l); [|done]. rewrite bind_Ok.
    intros [= <-]. simpl. f_equal. by apply IH.
Qed.

Lemma average_oxygen_per_year_Ok_dom water_list m :
  average_oxygen_per_year water_list = Ok m ->
  dom m = list_to_set (PollutionRecords.year <$> water_list).
Proof.
  rewrite average_oxygen_unfold. intros Hm. apply set_eq. intros y.
  rewrite (quotients_dom _ _ _ _ Hm), float_totals_dom, dom_empty_L,
    elem_of_list_to_set, list_elem_of_fmap.
  split.
  - intros [H|(r & ? & ?)]; [by apply elem_of_empty in H|]. by exists r.
  - intros (r & ? & ?). right. by exists r.
Qed.

Lemma elem_of_sorted_set (s : gset Z) y : y ∈ Py.sorted_set s ↔ y ∈ s.
Proof. unfold Py.sorted_set. by rewrite merge_sort_Permutation, elem_of_elements. Qed.

Lemma ascending_of_NoDup (l : list Z) :
  StronglySorted Z.le l -> NoDup l -> StronglySorted Z.lt l.
Proof.
  induction l as [|x l IH]; intros Hs Hn; [constructor|].
  apply StronglySorted_cons in Hs as [Hx Hs].
  apply NoDup_cons in Hn as [Hnx Hn].
  apply StronglySorted_cons. split; [|by apply IH].
  apply Forall_forall. intros y Hy.
  pose proof (proj1 (Forall_forall _ _) Hx y Hy).
  assert (x ≠ y) by (by intros ->). lia.
Qed.

Lemma sorted_set_ascending (s : gset Z) : StronglySorted Z.lt (Py.sorted_set s).
Proof.
  apply ascending_of_NoDup.
  - apply StronglySorted_merge_sort; apply _.
  - unfold Py.sorted_set. rewrite merge_sort_Permutation. apply NoDup_elements.
Qed.

Lemma joined_of_averages round fish_list water_list category m :
  average_oxygen_per_year water_list = Ok m ->
  ∃ rows,
    get_joined_yearly_data round fish_list water_list category = Ok rows
    ∧ Forall2 (row_of round (total_fish_landings_per_year fish_list category) m)
        (Py.sorted_set (common_years_of fish_list water_list category)) rows.
Proof.
  intros Hm. unfold get_joined_yearly_data, common_years_of.
  rewrite Hm, bind_Ok, <- (average_oxygen_per_year_Ok_dom _ _ Hm).
  apply mapM_Ok. intros y Hy.
  apply elem_of_sorted_set, elem_of_intersection in Hy as [Hf Ho].
  apply elem_of_dom in Hf as [p Hp]. apply elem_of_dom in Ho as [o Ho].
  eexists. unfold Py.getitem. rewrite Hp, bind_Ok, Ho, bind_Ok.
  split; [done|]. split; [done|]. split; [done|]. by exists o.
Qed.

Lemma row_of_years round fish_by_year oxygen_by_year years rows :
  Forall2 (row_of round fish_by_year oxygen_by_year) years rows ->
  Joined.year <$> rows = years.
Proof.
  induction 1 as [|y row years rows [Hy _] _ IH]; [done|].
  by rewrite fmap_cons, Hy, IH.
Qed.

(** X11. The joined rows.  On a Python list of samples
    [get_joined_yearly_data] raises nothing.  Its rows come in strictly
    ascending order of their year, one for each year that has both a
    landing passing the filter and a sample, and for no other year.  A row
    holds the sum of the pounds of its year's qualifying landings and the
    year's oxygen average rounded to two decimals. *)
Theorem get_joined_yearly_data_rows
    (round : Py.float -> Z -> Py.float) fish_list water_list category :
  Z.of_nat (length water_list) <= Py.sys_maxsize ->
  ∃ averages rows,
    average_oxygen_per_year water_list = Ok averages
    ∧ get_joined_yearly_data round fish_list water_list category = Ok rows
    ∧ StronglySorted Z.lt (Joined.year <$> rows)
    ∧ (∀ y, y ∈ Joined.year <$> rows
            ↔ y ∈ common_years_of fish_list water_list category)
    ∧ Forall
        (fun row =>
           Joined.fish_pounds row
           = total (pounds <$> qualifying category (Joined.year row) fish_list)
           ∧ ∃ oxygen,
               averages !! Joined.year row = Some oxygen
               ∧ Joined.avg_dissolved_oxygen row = round oxygen 2)
        rows.
Proof.
  intros Hlen.
  destruct (average_oxygen_per_year_dom water_list Hlen) as (m & Hm & _).
  destruct (joined_of_averages round fish_list water_list category m Hm)
    as (rows & Hrows & Hall).
  exists m, rows. split; [done|]. split; [done|].
  rewrite (row_of_years _ _ _ _ _ Hall).
  split; [apply sorted_set_ascending|].
  split; [intros y; apply elem_of_sorted_set|].
  eapply Forall2_Forall_r; [exact Hall|].
  apply Forall_forall. intros y _ row (Hy & Hp & Ho). rewrite Hy.
  split; [|done].
  rewrite total_fish_landings_per_year_lookup in Hp.
  destruct (qualifying category y fish_list); [done|]. by injection Hp.
Qed.

Lemma get_joined_yearly_data_rows_witness :
  ∃ averages rows,
    average_oxygen_per_year sample_water = Ok averages
    ∧ get_joined_yearly_data (fun x _ => x) sample_fish sample_water None
      = Ok rows
    ∧ StronglySorted Z.lt (Joined.year <$> rows)
    ∧ (∀ y, y ∈ Joined.year <$> rows
            ↔ y ∈ common_years_of sample_fish sample_water None)
    ∧ Forall
        (fun row =>
           Joined.fish_pounds row
           = total (pounds <$> qualifying None (Joined.year row) sample_fish)
           ∧ ∃ oxygen,
               averages !! Joined.year row = Some oxygen
               ∧ Joined.avg_dissolved_oxygen row = oxygen)
        rows.
Proof.
  apply (get_joined_yearly_data_rows (fun x _ => x) sample_fish sample_water
           None).
  by vm_compute.
Defined.

Lemma calc_pearson_n sum_float pow2 fish_list water_list category r n :
  calc_pearson sum_float pow2 fish_list water_list category = Ok (r, n) ->
  ∃ m, average_oxygen_per_year water_list = Ok m
       ∧ n = Z.of_nat (size (common_years_of fish_list water_list category)).
Proof.
  unfold calc_pearson, common_years_of.
  destruct (average_oxygen_per_year water_list) as [m|] eqn:Hm; [|done].
  rewrite bind_Ok, <- (average_oxygen_per_year_Ok_dom _ _ Hm).
  rewrite <- length_sorted_set.
  intros H. exists m. split; [done|]. revert H.
  destruct (_ <? 2); [by intros [= _ <-]|].
  repeat
    match goal with
    | |- (?x ≫= _) = Ok _ -> _ => destruct x; [rewrite bind_Ok|done]
    end.
  destruct (Py.feqb _ _); [by intros [= _ <-]|].
  repeat
    match goal with
    | |- (?x ≫= _) = Ok _ -> _ => destruct x; [rewrite bind_Ok|done]
    end.
  by intros [= _ <-].
Qed.

(** X12. Whenever [calc_pearson] returns, the count in its result is the
    number of years common to the two series, whatever the coefficient,
    and it is the number of rows [get_joined_yearly_data] returns on the
    same lists, which then raises nothing. *)
Theorem calc_pearson_counts_joined_rows
    (sum_float : list Py.float -> Py.float) (pow2 : Py.float -> Py.float)
    (round : Py.float -> Z -> Py.float)
    fish_list water_list category r n :
  calc_pearson sum_float pow2 fish_list water_list category = Ok (r, n) ->
  n = Z.of_nat (size (common_years_of fish_list water_list category))
  ∧ ∃ rows,
      get_joined_yearly_data round fish_list water_list category = Ok rows
      ∧ Z.of_nat (length rows) = n.
Proof.
  intros H. apply calc_pearson_n in H as (m & Hm & ->). split; [done|].
  destruct (joined_of_averages round fish_list water_list category m Hm)
    as (rows & Hrows & Hall).
  exists rows. split; [done|].
  by rewrite <- (Forall2_length _ _ _ Hall), length_sorted_set.
Qed.

Lemma calc_pearson_counts_joined_rows_witness :
  ∃ rows,
    get_joined_yearly_data (fun x _ => x)
      [landing "Finfish" 2000 "A" 10; landing "Finfish" 2001 "A" 20;
       landing "Finfish" 2002 "A" 30]
      [sample "S1" "2000" (Py.nearest 1) 2000;
       sample "S1" "2001" (Py.nearest 2) 2001;
       sample "S1" "2002" (Py.nearest 3) 2002] None = Ok rows
    ∧ Z.of_nat (length rows) = 3.
Proof.
  apply (proj2 (calc_pearson_counts_joined_rows Py.sum_float_compensated
                  Py.rounded_square
                  (fun x _ => x)
                  [landing "Finfish" 2000 "A" 10; landing "Finfish" 2001 "A" 20;
                   landing "Finfish" 2002 "A" 30]
                  [sample "S1" "2000" (Py.nearest 1) 2000;
                   sample "S1" "2001" (Py.nearest 2) 2001;
                   sample "S1" "2002" (Py.nearest 3) 2002] None
                  (Py.nearest 1) 3 ltac:(by vm_compute))).
Defined.

(** ** The order of the landings *)

(** X13. The analysis does not depend on the order of the landings: the
    coefficient with its count, the joined rows, the summary and every
    comparison of two yearly totals are the same for two lists that hold
    the same landings in another order. *)
Theorem analysis_ignores_landing_order
    (sum_float : list Py.float -> Py.float) (pow2 : Py.float -> Py.float)
    (round : Py.float -> Z -> Py.float)
    fish_list fish_list' water_list category :
  fish_list ≡ₚ fish_list' ->
  calc_pearson sum_float pow2 fish_list water_list category
  = calc_pearson sum_float pow2 fish_list' water_list category
  ∧ get_joined_yearly_data round fish_list water_list category
    = get_joined_yearly_data round fish_list' water_list category
  ∧ get_summary_stats sum_float pow2 round fish_list water_list category
    = get_summary_stats sum_float pow2 round fish_list' water_list category
  ∧ ∀ year1 year2,
      compare_total_landings_between_years fish_list year1 year2 category
      = compare_total_landings_between_years fish_list' year1 year2 category.
Proof.
  intros Hp.
  pose proof (total_fish_landings_per_year_Permutation _ _ category Hp) as Heq.
  assert (Hcalc : calc_pearson sum_float pow2 fish_list water_list category
                  = calc_pearson sum_float pow2 fish_list' water_list category)
    by (unfold calc_pearson; by rewrite Heq).
  split; [done|].
  split; [unfold get_joined_yearly_data; by rewrite Heq|].
  split.
  - unfold get_summary_stats.
    rewrite Hcalc, Heq, !overall_as_values_total.
    by rewrite (total_fish_landings_per_year_Permutation _ _ _ Hp),
      (Permutation_length Hp).
  - intros year1 year2. unfold compare_total_landings_between_years.
    by rewrite Heq.
Qed.

Lemma analysis_ignores_landing_order_witness :
  calc_pearson Py.sum_float_compensated Py.rounded_square
    (reverse sample_fish) sample_water None
  = calc_pearson Py.sum_float_compensated Py.rounded_square
      sample_fish sample_water None.
Proof.
  apply (proj1 (analysis_ignores_landing_order Py.sum_float_compensated
                  Py.rounded_square
                  (fun x _ => x) (reverse sample_fish) sample_fish sample_water
                  None ltac:(apply reverse_Permutation))).
Defined.

(** ** A category that no landing has *)

Lemma sorted_set_empty : Py.sorted_set ∅ = [].
Proof. apply nil_length_inv. by rewrite length_sorted_set, size_empty. Qed.

Lemma calc_pearson_of_few sum_float pow2 fish_list water_list category m :
  average_oxygen_per_year water_list = Ok m ->
  (size (common_years_of fish_list water_list category) < 2)%nat ->
  calc_pearson sum_float pow2 fish_list water_list category
  = Ok (Py.fzero,
        Z.of_nat (size (common_years_of fish_list water_list category))).
Proof.
  intros Hm Hfew. unfold calc_pearson. rewrite Hm. cbn.
  rewrite (average_oxygen_per_year_Ok_dom _ _ Hm).
  fold (common_years_of fish_list water_list category).
  rewrite length_sorted_set.
  destruct (Z.ltb_spec
              (Z.of_nat (size (common_years_of fish_list water_list category))) 2);
    [done|lia].
Qed.

Lemma qualifying_unknown_category fish_list c y :
  c ≠ EmptyString ->
  (∀ r, r ∈ fish_list -> FishLandings.category r ≠ c) ->
  qualifying (Some c) y fish_list = [].
Proof.
  intros Hc Hall. apply filter_none. intros r Hr [[?|?] _]; [done|].
  by apply (Hall r).
Qed.

(** X14. A filter that names a category no landing has (and is not the
    empty string) leaves nothing: the yearly totals are the empty dict, the
    grand total is 0, every comparison of two years has zero totals, zero
    change and no percentage, and on a Python list of samples the
    correlation is 0.0 over 0 years and there are no joined rows. *)
Theorem unknown_category_finds_nothing
    (sum_float : list Py.float -> Py.float) (pow2 : Py.float -> Py.float)
    (round : Py.float -> Z -> Py.float)
    fish_list water_list c :
  c ≠ EmptyString ->
  (∀ r, r ∈ fish_list -> FishLandings.category r ≠ c) ->
  Z.of_nat (length water_list) <= Py.sys_maxsize ->
  total_fish_landings_per_year fish_list (Some c) = ∅
  ∧ total_fish_category_landings_overall fish_list (Some c) = 0
  ∧ (∀ year1 year2,
       compare_total_landings_between_years fish_list year1 year2 (Some c)
       = Ok {| Totals.year1 := year1;
               Totals.year2 := year2;
               Totals.year1_total := 0;
               Totals.year2_total := 0;
               Totals.change := 0;
               Totals.percent_change := None |})
  ∧ calc_pearson sum_float pow2 fish_list water_list (Some c)
    = Ok (Py.fzero, 0)
  ∧ get_joined_yearly_data round fish_list water_list (Some c) = Ok [].
Proof.
  intros Hc Hall Hlen.
  assert (Hempty : total_fish_landings_per_year fish_list (Some c) = ∅).
  { apply map_eq. intros y.
    by rewrite lookup_empty, total_fish_landings_per_year_year_total,
      qualifying_unknown_category. }
  destruct (average_oxygen_per_year_dom water_list Hlen) as (m & Hm & _).
  split; [done|].
  split; [by rewrite overall_as_values_total, Hempty|].
  split; [intros year1 year2; unfold compare_total_landings_between_years;
          by rewrite Hempty|].
  assert (Hnone : common_years_of fish_list water_list (Some c) = ∅)
    by (unfold common_years_of; by rewrite Hempty, dom_empty_L,
          intersection_empty_l_L).
  split.
  - rewrite (calc_pearson_of_few _ _ _ _ _ _ Hm); rewrite Hnone, size_empty;
      [done|lia].
  - destruct (joined_of_averages round fish_list water_list (Some c) m Hm)
      as (rows & -> & Hrows).
    rewrite Hnone, sorted_set_empty in Hrows.
    by apply Forall2_nil_inv_l in Hrows as ->.
Qed.

Lemma unknown_category_finds_nothing_witness :
  calc_pearson Py.sum_float_compensated Py.rounded_square sample_fish
    sample_water (Some "Mollusks") = Ok (Py.fzero, 0).
Proof.
  refine (proj1 (proj2 (proj2 (proj2
            (unknown_category_finds_nothing Py.sum_float_compensated
               Py.rounded_square
               (fun x _ => x) sample_fish sample_water "Mollusks"
               ltac:(done) _ ltac:(by vm_compute)))))).
  intros r Hr. unfold sample_fish in Hr.
  repeat (apply elem_of_cons in Hr as [->|Hr]; [by vm_compute|]).
  by apply elem_of_nil in Hr.
Defined.

(** ** Percentages and the exceptions of the integer comparisons *)

Lemma int_truediv_raises a b e :
  Py.int_truediv a b = Raise e ↔
  (b = 0 ∧ e = ZeroDivisionError)
  ∨ (b ≠ 0 ∧ Py.overflow_threshold * Z.abs b <= Z.abs a ∧ e = OverflowError).
Proof.
  unfold Py.int_truediv.
  destruct (Z.eqb_spec b 0) as [->|Hb].
  - split; [intros [= <-]; by left|]. by intros [[_ ->]|[? _]].
  - destruct (Z.leb_spec (Py.overflow_threshold * Z.abs b) (Z.abs a)).
    + split; [intros [= <-]; by right|]. by intros [[? _]|(_ & _ & ->)].
    + split; [done|]. intros [[? _]|(_ & ? & _)]; [done|lia].
Qed.

Lemma pct_change_raises a b e :
  pct_change a b = Raise e ↔
  0 < a ∧ Py.overflow_threshold * a <= Z.abs (b - a) ∧ e = OverflowError.
Proof.
  unfold pct_change. destruct (Z.ltb_spec 0 a) as [Ha|Ha].
  - destruct (Py.int_truediv (b - a) a) as [q|e'] eqn:Hq.
    + rewrite bind_Ok. unfold Py.float_mul_int.
      rewrite float_of_int_100, !bind_Ok. split; [done|].
      intros (_ & Hle & ->).
      assert (Py.int_truediv (b - a) a = Raise OverflowError) as Hr
        by (apply int_truediv_raises; right; rewrite Z.abs_eq by lia;
            split; [lia|done]).
      congruence.
    + apply int_truediv_raises in Hq as [[? _]|(_ & Hle & ->)]; [lia|].
      rewrite Z.abs_eq in Hle by lia. split; [by intros [= <-]|].
      by intros (_ & _ & ->).
  - split; [done|]. intros [? _]. lia.
Qed.

Lemma pct_change_same a :
  pct_change a a = Ok (if 0 <? a then Some Py.fzero else None).
Proof.
  unfold pct_change. destruct (Z.ltb_spec 0 a) as [Ha|Ha]; [|done].
  rewrite Z.sub_diag. unfold Py.int_truediv.
  destruct (Z.eqb_spec a 0); [lia|].
  destruct (Z.leb_spec (Py.overflow_threshold * Z.abs a) (Z.abs 0)) as [Hle|_].
  { pose proof sys_maxsize_in_range. unfold Py.sys_maxsize in *.
    change (Z.abs 0) with 0 in Hle. nia. }
  rewrite bind_Ok. unfold Py.float_mul_int.
  rewrite float_of_int_100, !bind_Ok.
  destruct a as [|p|p]; [lia| |lia]. done.
Qed.

(** X15. Comparing a year with itself: both totals are that year's total
    (0 for a year without a qualifying landing), the change is 0, and the
    percentage is 0.0 when the total is positive and [None] otherwise; no
    exception is raised, whatever the weights. *)
Theorem compare_total_landings_same_year fish_list year category :
  compare_total_landings_between_years fish_list year year category
  = Ok {| Totals.year1 := year;
          Totals.year2 := year;
          Totals.year1_total :=
            default 0 (total_fish_landings_per_year fish_list category !! year);
          Totals.year2_total :=
            default 0 (total_fish_landings_per_year fish_list category !! year);
          Totals.change := 0;
          Totals.percent_change :=
            if 0 <? default 0
                      (total_fish_landings_per_year fish_list category !! year)
            then Some Py.fzero else None |}.
Proof.
  unfold compare_total_landings_between_years.
  by rewrite pct_change_same, bind_Ok, Z.sub_diag.
Qed.

(** X16. The only exception of [compare_total_landings_between_years] is
    [OverflowError], and it is raised exactly when the first total is
    positive and the change is [2^1024 - 2^970] times the first total or
    more in magnitude, that is when the quotient is beyond the largest
    [float]. *)
Theorem compare_total_landings_between_years_raises
    fish_list year1 year2 category e :
  compare_total_landings_between_years fish_list year1 year2 category = Raise e
  ↔ 0 < default 0 (total_fish_landings_per_year fish_list category !! year1)
    ∧ Py.overflow_threshold
      * default 0 (total_fish_landings_per_year fish_list category !! year1)
      <= Z.abs
           (default 0 (total_fish_landings_per_year fish_list category !! year2)
            - default 0
                (total_fish_landings_per_year fish_list category !! year1))
    ∧ e = OverflowError.
Proof.
  unfold compare_total_landings_between_years.
  rewrite <- pct_change_raises.
  destruct (pct_change _ _) as [p|e']; [by split|].
  split; by intros [= <-].
Qed.

(** ** The exception of the average of landings *)

Lemma quotients_of_raises {T} (div : T -> Z -> result Py.float)
    (totals : gmap Z T) (counts : gmap Z Z) (years : list Z) e :
  quotients_of div totals counts years = Raise e ->
  ∃ y, y ∈ years
       ∧ (Py.getitem totals y ≫= fun t =>
          Py.getitem counts y ≫= fun c => div t c) = Raise e.
Proof.
  induction years as [|k years IH]; simpl; [done|].
  destruct (quotients_of div totals counts years) as [out|e'].
  - rewrite bind_Ok. intros H. exists k. split; [left|].
    destruct (Py.getitem totals k) as [t|]; [|by injection H as <-].
    rewrite !bind_Ok in *.
    destruct (Py.getitem counts k) as [c|]; [|by injection H as <-].
    rewrite !bind_Ok in *.
    destruct (div t c); [done|by injection H as <-].
  - intros [= <-]. destruct IH as (y & Hy & H); [done|].
    exists y. split; [by right|done].
Qed.

Lemma quotients_of_returns {T} (div : T -> Z -> result Py.float)
    (totals : gmap Z T) (counts : gmap Z Z) (years : list Z) m y :
  quotients_of div totals counts years = Ok m ->
  y ∈ years ->
  ∃ a, (Py.getitem totals y ≫= fun t =>
        Py.getitem counts y ≫= fun c => div t c) = Ok a.
Proof.
  revert m. induction years as [|k years IH]; intros m; simpl.
  - intros _ Hy. by apply elem_of_nil in Hy.
  - destruct (quotients_of div totals counts years) as [out|]; [|done].
    rewrite bind_Ok. intros H Hy.
    apply elem_of_cons in Hy as [->|Hy]; [|by eapply IH].
    destruct (Py.getitem totals k) as [t|]; [|done]. rewrite !bind_Ok in *.
    destruct (Py.getitem counts k) as [c|]; [|done]. rewrite !bind_Ok in *.
    destruct (div t c) as [a|]; [|done]. by exists a.
Qed.

(** X17. The only exception of [average_fish_landings_per_year] is
    [OverflowError], and it is raised exactly when some year's total is,
    in magnitude, [2^1024 - 2^970] times the number of that year's
    landings or more.  Neither [KeyError] nor [ZeroDivisionError] can
    occur. *)
Theorem average_fish_landings_per_year_raises fish_list e :
  average_fish_landings_per_year fish_list = Raise e
  ↔ e = OverflowError
    ∧ ∃ y, landings_in y fish_list ≠ []
           ∧ Py.overflow_threshold * Z.of_nat (length (landings_in y fish_list))
             <= Z.abs (total (pounds <$> landings_in y fish_list)).
Proof.
  rewrite average_fish_unfold. unfold quotients.
  assert (Hstep : ∀ y,
    (Py.getitem (total_fish_landings_per_year fish_list None) y ≫= fun t =>
     Py.getitem
       (fold_left (fun counts r => accumulate counts (year r) 1) fish_list ∅) y
     ≫= fun c => Py.int_truediv t c)
    = match landings_in y fish_list with
      | [] => Raise KeyError
      | rs => Py.int_truediv (total (pounds <$> rs)) (Z.of_nat (length rs))
      end).
  { intros y. unfold Py.getitem.
    rewrite total_fish_landings_per_year_lookup, counts_lookup, qualifying_None.
    unfold landings_in. by destruct (filter _ fish_list). }
  assert (Hkeys : ∀ y,
    y ∈ (map_to_list (total_fish_landings_per_year fish_list None)).*1
    ↔ landings_in y fish_list ≠ []).
  { intros y. rewrite <- (qualifying_None y fish_list). split.
    - intros Hy. apply list_elem_of_fmap in Hy as ([y' t] & -> & Hy).
      apply elem_of_map_to_list in Hy. simpl.
      rewrite total_fish_landings_per_year_lookup in Hy.
      by destruct (qualifying None y' fish_list).
    - intros Hy.
      apply (key_of_map_to_list _ _
               (total (pounds <$> qualifying None y fish_list))).
      rewrite total_fish_landings_per_year_lookup.
      by destruct (qualifying None y fish_list). }
  split.
  - intros H. apply quotients_of_raises in H as (y & Hy & H).
    rewrite Hstep in H. apply Hkeys in Hy.
    destruct (landings_in y fish_list) as [|r rs] eqn:E; [done|].
    apply int_truediv_raises in H as [[H _]|(_ & H & ->)]; [done|].
    split; [done|]. exists y. rewrite E. split; [done|].
    by rewrite (Z.abs_eq (Z.of_nat _)) in H by lia.
  - intros (-> & y & Hy & Hle).
    destruct (quotients_of Py.int_truediv _ _ _) as [m|e] eqn:Hq.
    + apply Hkeys in Hy as Hin.
      destruct (quotients_of_returns _ _ _ _ _ _ Hq Hin) as [a Ha].
      rewrite Hstep in Ha.
      destruct (landings_in y fish_list) as [|r rs] eqn:E; [done|].
      assert (Py.int_truediv (total (pounds <$> r :: rs))
                (Z.of_nat (length (r :: rs))) = Raise OverflowError) as Hr.
      { apply int_truediv_raises. right.
        rewrite (Z.abs_eq (Z.of_nat _)) by lia. split; [done|]. by split. }
      congruence.
    + apply quotients_of_raises in Hq as (y' & Hy' & H).
      rewrite Hstep in H. apply Hkeys in Hy'.
      destruct (landings_in y' fish_list) as [|r rs]; [done|].
      by apply int_truediv_raises in H as [[H _]|(_ & H & ->)].
Qed.

(** ** The species of a comparison and their changes *)

Lemma species_change_raises (year1_data year2_data : gmap string Z) s e :
  species_change year1_data year2_data s = Raise e ↔
  0 < default 0 (year1_data !! s)
  ∧ Py.overflow_threshold * default 0 (year1_data !! s)
    <= Z.abs (default 0 (year2_data !! s) - default 0 (year1_data !! s))
  ∧ e = OverflowError.
Proof.
  unfold species_change. rewrite <- pct_change_raises.
  destruct (pct_change _ _) as [p|e']; [by split|].
  split; by intros [= <-].
Qed.

Lemma species_change_percent (year1_data year2_data : gmap string Z) s e :
  species_change year1_data year2_data s = Ok e ->
  Species.percent_change e = None ↔ Species.year1_pounds e <= 0.
Proof.
  unfold species_change, pct_change.
  destruct (Z.ltb_spec 0 (default 0 (year1_data !! s))) as [Hp|Hp].
  - destruct (Py.int_truediv _ _) as [q|]; [|done]. rewrite bind_Ok.
    destruct (Py.float_mul_int q 100) as [p|]; [|done]. rewrite !bind_Ok.
    intros [= <-]. simpl. split; [done|lia].
  - rewrite bind_Ok. intros [= <-]. simpl. by split.
Qed.

Lemma changes_of_total (year1_data year2_data : gmap string Z) names changes :
  NoDup names ->
  changes_of year1_data year2_data names = Ok changes ->
  changes_total changes
  = total ((fun s => default 0 (year2_data !! s)) <$> names)
    - total ((fun s => default 0 (year1_data !! s)) <$> names).
Proof.
  revert changes. induction names as [|k names IH]; intros changes Hn.
  - intros [= <-]. unfold changes_total. by rewrite map_to_list_empty.
  - apply NoDup_cons in Hn as [Hk Hn]. rewrite changes_of_cons.
    destruct (changes_of _ _ names) as [out|] eqn:Hout; [|done].
    rewrite bind_Ok.
    destruct (species_change year1_data year2_data k) as [entry|] eqn:He;
      [|done].
    rewrite bind_Ok. intros [= <-].
    apply species_change_pounds in He as (_ & _ & He).
    specialize (IH out Hn eq_refl). unfold changes_total in *.
    rewrite map_to_list_insert.
    + rewrite !fmap_cons, !total_cons, IH. simpl. rewrite He. lia.
    + apply not_elem_of_dom. rewrite (changes_of_dom _ _ _ _ Hout).
      by rewrite elem_of_list_to_set.
Qed.

(** X18. In the dict [compare_species_between_years] returns,
    ["species_changes"] has one entry for each species with a landing in
    one of the two years, and no other.  The change of an entry is its
    second-year pounds minus its first-year pounds, its percentage is
    [None] exactly when its first-year pounds are 0 or less, and the
    changes of all entries add up to the second year's total minus the
    first year's. *)
Theorem compare_species_changes_add_up fish_list year1 year2 c :
  compare_species_between_years fish_list year1 year2 = Ok c ->
  (∀ s, s ∈ dom (Species.species_changes c)
        ↔ ∃ r, r ∈ fish_list ∧ species r = s
               ∧ (year r = year1 ∨ year r = year2))
  ∧ (∀ s e, Species.species_changes c !! s = Some e ->
       Species.change e = Species.year2_pounds e - Species.year1_pounds e
       ∧ (Species.percent_change e = None ↔ Species.year1_pounds e <= 0))
  ∧ changes_total (Species.species_changes c)
    = Species.year2_total c - Species.year1_total c.
Proof.
  intros Hc.
  destruct (compare_species_unfold _ _ _ _ Hc) as (H1 & H2 & Hentries).
  revert Hc. unfold compare_species_between_years.
  rewrite species_data_folds.
  set (d1 := overwrite (in_year1 year1) species pounds fish_list ∅) in *.
  set (d2 := overwrite (in_year2 year1 year2) species pounds fish_list ∅) in *.
  destruct (changes_of d1 d2 (elements (dom d1 ∪ dom d2))) as [changes|] eqn:E;
    [|done].
  rewrite bind_Ok. intros [= <-]. simpl in *.
  split; [|split].
  - intros s. rewrite (changes_of_dom _ _ _ _ E), elem_of_list_to_set,
      elem_of_elements, elem_of_union.
    unfold d1, d2. rewrite !overwrite_dom. unfold in_year1, in_year2. split.
    + intros [(r & Hr & Hs & Hk)|(r & Hr & Hs & Hk)]; exists r.
      * apply bool_decide_eq_true in Hs. auto.
      * apply andb_true_iff in Hs as [_ Hs].
        apply bool_decide_eq_true in Hs. auto.
    + intros (r & Hr & Hk & Hy).
      destruct (decide (year r = year1)) as [Hy1|Hy1].
      * left. exists r. by rewrite bool_decide_eq_true.
      * right. exists r. destruct Hy as [?|Hy2]; [done|].
        rewrite andb_true_iff, negb_true_iff, bool_decide_eq_false,
          bool_decide_eq_true. done.
  - intros s e He. specialize (Hentries s e He).
    split; [|by apply (species_change_percent _ _ _ _ Hentries)].
    apply species_change_pounds in Hentries as (-> & -> & ->). done.
  - rewrite (changes_of_total _ _ _ _ (NoDup_elements _) E).
    rewrite !total_of_defaults, H1, H2; [done| | | |];
      try apply NoDup_elements.
    + intros s Hs. rewrite elem_of_list_to_set, elem_of_elements. set_solver.
    + intros s Hs. rewrite elem_of_list_to_set, elem_of_elements. set_solver.
Qed.

Lemma compare_species_changes_add_up_witness :
  ∃ c, compare_species_between_years sample_fish 2000 2001 = Ok c
       ∧ changes_total (Species.species_changes c)
         = Species.year2_total c - Species.year1_total c.
Proof.
  eexists. split; [by vm_compute|].
  apply (compare_species_changes_add_up sample_fish 2000 2001). by vm_compute.
Defined.

Lemma changes_of_raises (year1_data year2_data : gmap string Z) names e :
  changes_of year1_data year2_data names = Raise e ->
  ∃ s, s ∈ names ∧ species_change year1_data year2_data s = Raise e.
Proof.
  induction names as [|k names IH]; simpl; [done|].
  destruct (changes_of _ _ names) as [out|e'].
  - rewrite bind_Ok. intros H. exists k. split; [left|].
    destruct (species_change _ _ k); [done|by injection H as <-].
  - intros [= <-]. destruct IH as (s & Hs & H); [done|].
    exists s. split; [by right|done].
Qed.

Lemma changes_of_returns (year1_data year2_data : gmap string Z) names changes s :
  changes_of year1_data year2_data names = Ok changes ->
  s ∈ names ->
  ∃ entry, species_change year1_data year2_data s = Ok entry.
Proof.
  revert changes. induction names as [|k names IH]; intros changes; simpl.
  - intros _ Hs. by apply elem_of_nil in Hs.
  - destruct (changes_of _ _ names) as [out|]; [|done]. rewrite bind_Ok.
    intros H Hs. apply elem_of_cons in Hs as [->|Hs]; [|by eapply IH].
    destruct (species_change _ _ k) as [entry|]; [|done]. by exists entry.
Qed.

(** X19. The only exception of [compare_species_between_years] is
    [OverflowError], and it is raised exactly when some species has
    positive first-year pounds and a change that is, in magnitude,
    [2^1024 - 2^970] times these pounds or more. *)
Theorem compare_species_between_years_raises fish_list year1 year2 e :
  compare_species_between_years fish_list year1 year2 = Raise e
  ↔ e = OverflowError
    ∧ ∃ s,
        0 < default 0 ((species_data fish_list year1 year2).1 !! s)
        ∧ Py.overflow_threshold
          * default 0 ((species_data fish_list year1 year2).1 !! s)
          <= Z.abs
               (default 0 ((species_data fish_list year1 year2).2 !! s)
                - default 0 ((species_data fish_list year1 year2).1 !! s)).
Proof.
  unfold compare_species_between_years.
  destruct (species_data fish_list year1 year2) as [d1 d2]. simpl.
  split.
  - destruct (changes_of d1 d2 _) as [changes|e'] eqn:E; [done|].
    intros [= <-]. apply changes_of_raises in E as (s & _ & Hs).
    apply species_change_raises in Hs as (Hp & Hle & ->).
    split; [done|]. by exists s.
  - intros (-> & s & Hp & Hle).
    assert (species_change d1 d2 s = Raise OverflowError) as Hs
      by (by apply species_change_raises).
    destruct (changes_of d1 d2 _) as [changes|e'] eqn:E.
    + destruct (changes_of_returns _ _ _ _ s E) as [entry He]; [|congruence].
      apply elem_of_elements, elem_of_union. left. apply elem_of_dom.
      destruct (d1 !! s); [done|]. simpl in Hp. lia.
    + apply changes_of_raises in E as (s' & _ & Hs').
      by apply species_change_raises in Hs' as (_ & _ & ->).
Qed.

(** ** The interpretation of the coefficient *)

(** X20. [interpret_correlation] returns the sentence about a negligible
    correlation exactly when the magnitude of the coefficient is below
    0.1; this sentence names neither a direction nor the coefficient, so
    the formatting of the number plays no part in it.  It is what is said
    of the result of [calc_pearson] when fewer than two years are common
    to the two series. *)
Theorem interpret_correlation_negligible (format_4f : Py.float -> string) :
  (∀ r, SFltb (SFabs r) (decimal 1 10) = true
        ↔ Main.interpret_correlation format_4f r = negligible_sentence)
  ∧ ∀ (sum_float : list Py.float -> Py.float) (pow2 : Py.float -> Py.float)
      fish_list water_list category,
      Z.of_nat (length water_list) <= Py.sys_maxsize ->
      (size (common_years_of fish_list water_list category) < 2)%nat ->
      ∃ r n, calc_pearson sum_float pow2 fish_list water_list category
             = Ok (r, n)
             ∧ Main.interpret_correlation format_4f r = negligible_sentence.
Proof.
  assert (Hiff : ∀ r, SFltb (SFabs r) (decimal 1 10) = true
        ↔ Main.interpret_correlation format_4f r = negligible_sentence).
  { intros r. unfold Main.interpret_correlation, Main.strength.
    destruct (SFltb (SFabs r) (decimal 1 10)); [done|].
    split; [done|]. intros H. simpl in H. discriminate H. }
  split; [done|].
  intros sum_float pow2 fish_list water_list category Hlen Hfew.
  destruct (average_oxygen_per_year_dom water_list Hlen) as (m & Hm & _).
  eexists _, _. split; [by apply (calc_pearson_of_few _ _ _ _ _ _ Hm)|].
  by apply Hiff.
Qed.

Lemma interpret_correlation_negligible_witness :
  ∃ r n,
    calc_pearson Py.sum_float_compensated Py.rounded_square
      [landing "Finfish" 2000 "Anchovy" 100] sample_water None = Ok (r, n)
    ∧ Main.interpret_correlation (fun _ => "0.0000") r = negligible_sentence.
Proof.
  apply (proj2 (interpret_correlation_negligible (fun _ => "0.0000"))
           Py.sum_float_compensated Py.rounded_square
           [landing "Finfish" 2000 "Anchovy" 100]
           sample_water None).
  - by vm_compute.
  - vm_compute. lia.
Defined.

Lemma SFabs_opp (r : Py.float) : SFabs (SFopp r) = SFabs r.
Proof. by destruct r. Qed.

(** X21. The word for the strength depends on the magnitude of the
    coefficient only: a coefficient and its negation get the same word,
    and, unless the coefficient is a zero or not a number, opposite
    directions.  A coefficient that is not a number is below no threshold
    and not above 0, so it is reported as a very strong negative
    correlation. *)
Theorem strength_ignores_sign (format_4f : Py.float -> string) :
  (∀ r, Main.strength (SFopp r) = Main.strength r)
  ∧ (∀ r, match r with
          | S754_nan | S754_zero _ => True
          | _ => Main.direction (SFopp r) ≠ Main.direction r
          end)
  ∧ Main.interpret_correlation format_4f S754_nan
    = "There is a very strong negative correlation (r="
      +:+ format_4f S754_nan
      +:+ ") between fish landings and dissolved oxygen levels.".
Proof.
  split; [|split; [|done]].
  - intros r. unfold Main.strength. by rewrite SFabs_opp.
  - by intros [[]|[]| |[] m e].
Qed.

(** ** Loading the landings of a range of years *)

Section Loading.

Context {E : Type}.
Variable read_year : Z -> E + list FishLanding.

Lemma load_year_without_file all_landings year :
  ¬ has_file year -> load_year read_year all_landings year = inr all_landings.
Proof.
  unfold has_file, load_year, get_fish_landings_in_specified_year. intros H.
  destruct (Z.ltb_spec year 1980); [done|].
  destruct (Z.ltb_spec 2002 year); [done|lia].
Qed.

Lemma load_year_with_file all_landings year :
  has_file year ->
  load_year read_year all_landings year
  = match read_year year with
    | inl e => inl e
    | inr results => inr (all_landings ++ results)
    end.
Proof.
  unfold has_file, load_year, get_fish_landings_in_specified_year. intros H.
  destruct (Z.ltb_spec year 1980); [lia|].
  destruct (Z.ltb_spec 2002 year); [lia|]. simpl.
  destruct (read_year year) as [e|[|r rs]]; [done| |done].
  by rewrite app_nil_r.
Qed.

Lemma load_years_raised years e : load_years read_year years (inl e) = inl e.
Proof. induction years as [|y years IH]; [done|]. apply IH. Qed.

Lemma load_years_filter years all_landings :
  load_years read_year years all_landings
  = load_years read_year (filter has_file years) all_landings.
Proof.
  revert all_landings. induction years as [|y years IH]; intros acc; [done|].
  rewrite filter_cons. destruct acc as [e|acc].
  { by rewrite !load_years_raised. }
  case_decide as Hy.
  - simpl. apply IH.
  - simpl. rewrite load_year_without_file by done. apply IH.
Qed.

Lemma load_years_concat (files : Z -> list FishLanding) years all_landings :
  (∀ y, y ∈ years -> has_file y -> read_year y = inr (files y)) ->
  load_years read_year years (inr all_landings)
  = inr (all_landings ++ mjoin (files <$> filter has_file years)).
Proof.
  revert all_landings. induction years as [|y years IH]; intros acc Hread.
  { simpl. by rewrite app_nil_r. }
  rewrite filter_cons. simpl. case_decide as Hy.
  - rewrite load_year_with_file, (Hread y) by (done || left).
    rewrite IH by (intros; apply Hread; [by right|done]).
    by rewrite fmap_cons, <- app_assoc.
  - rewrite load_year_without_file by done.
    apply IH. intros. apply Hread; [by right|done].
Qed.

Lemma load_years_returns years all_landings :
  (∀ y, y ∈ years -> has_file y -> ∃ l, read_year y = inr l) ->
  ∃ l, load_years read_year years (inr all_landings) = inr l.
Proof.
  revert all_landings. induction years as [|y years IH]; intros acc Hread.
  { by exists acc. }
  simpl. destruct (decide (has_file y)) as [Hy|Hy].
  - destruct (Hread y) as [l Hl]; [left|done|].
    rewrite load_year_with_file, Hl by done.
    apply IH. intros. apply Hread; [by right|done].
  - rewrite load_year_without_file by done.
    apply IH. intros. apply Hread; [by right|done].
Qed.

End Loading.

Lemma filter_all {A} (P : A -> Prop) `{∀ x, Decision (P x)} (l : list A) :
  (∀ x, x ∈ l -> P x) -> filter P l = l.
Proof.
  induction l as [|a l IH]; intros Hall; [done|].
  rewrite filter_cons, decide_True by (apply Hall; left).
  f_equal. apply IH. intros x Hx. apply Hall. by right.
Qed.

Lemma years_with_file start_year end_year :
  filter has_file (seqZ start_year (end_year + 1 - start_year))
  = seqZ (start_year `max` 1980)
      (end_year `min` 2002 + 1 - start_year `max` 1980).
Proof.
  destruct (Z.le_gt_cases (end_year + 1 - start_year) 0) as [Hn|Hn].
  { rewrite !seqZ_nil by lia. done. }
  destruct (Z.lt_ge_cases end_year 1980) as [Hlow|Hlow].
  { rewrite (seqZ_nil (_ `max` _)) by lia. apply filter_none.
    intros y Hy. apply elem_of_seqZ in Hy. unfold has_file. lia. }
  destruct (Z.lt_ge_cases 2002 start_year) as [Hhigh|Hhigh].
  { rewrite (seqZ_nil (_ `max` _)) by lia. apply filter_none.
    intros y Hy. apply elem_of_seqZ in Hy. unfold has_file. lia. }
  set (a := start_year `max` 1980). set (b := end_year `min` 2002).
  replace (end_year + 1 - start_year)
    with ((a - start_year) + ((b + 1 - a) + (end_year - b))) by lia.
  rewrite !seqZ_app, !filter_app by lia.
  rewrite (filter_none has_file (seqZ start_year _)),
    (filter_none has_file (seqZ (start_year + (a - start_year) + _) _)),
    (filter_all has_file).
  - rewrite app_nil_r. simpl. f_equal. lia.
  - intros y Hy. apply elem_of_seqZ in Hy. unfold has_file. lia.
  - intros y Hy. apply elem_of_seqZ in Hy. unfold has_file. lia.
  - intros y Hy. apply elem_of_seqZ in Hy. unfold has_file. lia.
Qed.

(** X22. [get_all_fish_landings] reads no spreadsheet for a year outside
    1980 to 2002: a range that reaches beyond these years gives what the
    part of it within them gives, a list or an exception, and a range that
    is empty or lies outside them gives the empty list without any
    reading. *)
Theorem get_all_fish_landings_clips {E : Type}
    (read_year : Z -> E + list FishLanding) start_year end_year :
  get_all_fish_landings read_year start_year end_year
  = get_all_fish_landings read_year
      (start_year `max` 1980) (end_year `min` 2002)
  ∧ (∀ read_year' : Z -> E + list FishLanding,
       (∀ y, has_file y -> read_year' y = read_year y) ->
       get_all_fish_landings read_year' start_year end_year
       = get_all_fish_landings read_year start_year end_year)
  ∧ (end_year `min` 2002 < start_year `max` 1980 ->
     get_all_fish_landings read_year start_year end_year = inr []).
Proof.
  assert (Hclip : ∀ read : Z -> E + list FishLanding,
            get_all_fish_landings read start_year end_year
            = load_years read
                (seqZ (start_year `max` 1980)
                   (end_year `min` 2002 + 1 - start_year `max` 1980))
                (inr [])).
  { intros read. unfold get_all_fish_landings.
    fold (load_years read (seqZ start_year (end_year + 1 - start_year)) (inr [])).
    by rewrite load_years_filter, years_with_file. }
  split; [|split].
  - rewrite Hclip. unfold get_all_fish_landings.
    fold (load_years read_year
            (seqZ (start_year `max` 1980)
               (end_year `min` 2002 + 1 - start_year `max` 1980)) (inr [])).
    rewrite (load_years_filter read_year
               (seqZ (start_year `max` 1980)
                  (end_year `min` 2002 + 1 - start_year `max` 1980))).
    rewrite filter_all; [done|].
    intros y Hy. apply elem_of_seqZ in Hy. unfold has_file. lia.
  - intros read_year' Hsame. rewrite !Hclip.
    generalize (seqZ (start_year `max` 1980)
                  (end_year `min` 2002 + 1 - start_year `max` 1980)).
    intros years. generalize (inr [] : E + list FishLanding).
    induction years as [|y years IH]; intros acc; [done|]. simpl.
    destruct acc as [e|acc]; [apply IH|].
    destruct (decide (has_file y)) as [Hy|Hy].
    + by rewrite !load_year_with_file, Hsame.
    + by rewrite !load_year_without_file.
  - intros Hempty. rewrite Hclip, seqZ_nil by lia. done.
Qed.

Lemma get_all_fish_landings_clips_witness :
  get_all_fish_landings
    (fun y => if decide (y = 1990) then inl "no such file"
              else inr [landing "Finfish" y "Anchovy" 100]) 2003 2010
  = inr [].
Proof.
  apply (proj2 (proj2 (get_all_fish_landings_clips
           (fun y => if decide (y = 1990) then inl "no such file"
                     else inr [landing "Finfish" y "Anchovy" 100]) 2003 2010))).
  lia.
Defined.

(** X23. When every spreadsheet of the range can be read,
    [get_all_fish_landings] returns the landings of the years of the range
    that lie in 1980 to 2002, year after year in ascending order, each
    year's landings in the order of its spreadsheet. *)
Theorem get_all_fish_landings_concat {E : Type}
    (read_year : Z -> E + list FishLanding) (files : Z -> list FishLanding)
    start_year end_year :
  (∀ y, start_year <= y <= end_year -> has_file y ->
        read_year y = inr (files y)) ->
  get_all_fish_landings read_year start_year end_year
  = inr (mjoin (files <$> seqZ (start_year `max` 1980)
                            (end_year `min` 2002 + 1 - start_year `max` 1980))).
Proof.
  intros Hread. unfold get_all_fish_landings.
  fold (load_years read_year (seqZ start_year (end_year + 1 - start_year))
          (inr [])).
  rewrite (load_years_concat read_year files), years_with_file; [done|].
  intros y Hy. apply elem_of_seqZ in Hy. apply Hread. lia.
Qed.

Lemma get_all_fish_landings_concat_witness :
  get_all_fish_landings (E := string)
    (fun y => inr [landing "Finfish" y "Anchovy" 100]) 2001 2004
  = inr [landing "Finfish" 2001 "Anchovy" 100;
         landing "Finfish" 2002 "Anchovy" 100].
Proof.
  apply (get_all_fish_landings_concat (E := string)
           (fun y => inr [landing "Finfish" y "Anchovy" 100])
           (fun y => [landing "Finfish" y "Anchovy" 100]) 2001 2004).
  reflexivity.
Defined.

(** X24. [get_all_fish_landings] catches nothing: the exception of the
    first year of the range whose spreadsheet cannot be read is the
    exception of the call, whatever the later years hold. *)
Theorem get_all_fish_landings_raises {E : Type}
    (read_year : Z -> E + list FishLanding) start_year end_year year e :
  start_year <= year <= end_year ->
  has_file year ->
  read_year year = inl e ->
  (∀ y, start_year <= y < year -> has_file y -> ∃ l, read_year y = inr l) ->
  get_all_fish_landings read_year start_year end_year = inl e.
Proof.
  intros Hrange Hfile Hraise Hbefore. unfold get_all_fish_landings.
  replace (end_year + 1 - start_year)
    with ((year - start_year) + (1 + (end_year - year))) by lia.
  rewrite !seqZ_app by lia.
  fold (load_years read_year
          (seqZ start_year (year - start_year)
           ++ seqZ (start_year + (year - start_year)) 1
           ++ seqZ (start_year + (year - start_year) + 1) (end_year - year))
          (inr [])).
  unfold load_years. rewrite !fold_left_app.
  fold (load_years read_year (seqZ start_year (year - start_year)) (inr [])).
  destruct (load_years_returns read_year (seqZ start_year (year - start_year)) [])
    as [l ->].
  { intros y Hy. apply elem_of_seqZ in Hy. apply Hbefore. lia. }
  replace (start_year + (year - start_year)) with year by lia.
  rewrite (seqZ_cons year 1) by lia.
  rewrite (seqZ_nil (Z.succ year) (Z.pred 1)) by lia. simpl.
  rewrite load_year_with_file, Hraise by done.
  apply load_years_raised.
Qed.

Lemma get_all_fish_landings_raises_witness :
  get_all_fish_landings
    (fun y => if decide (y = 1990) then inl "no such file"
              else inr [landing "Finfish" y "Anchovy" 100]) 1980 2002
  = inl "no such file".
Proof.
  apply (get_all_fish_landings_raises
           (fun y => if decide (y = 1990) then inl "no such file"
                     else inr [landing "Finfish" y "Anchovy" 100])
           1980 2002 1990 "no such file");
    [lia|unfold has_file; lia|reflexivity|].
  intros y Hy _. exists [landing "Finfish" y "Anchovy" 100].
  simpl. destruct (decide (y = 1990)); [lia|reflexivity].
Defined.

Lemma landings_in_files (files : Z -> list FishLanding) (years : list Z) y :
  NoDup years ->
  (∀ y' r, r ∈ files y' -> year r = y') ->
  landings_in y (mjoin (files <$> years))
  = if decide (y ∈ years) then files y else [].
Proof.
  intros Hn Htag. induction years as [|k years IH].
  { by rewrite decide_False by apply not_elem_of_nil. }
  apply NoDup_cons in Hn as [Hk Hn]. specialize (IH Hn).
  rewrite fmap_cons. simpl. unfold landings_in in *. rewrite filter_app, IH.
  destruct (decide (k = y)) as [->|Hne].
  - rewrite (decide_False (P := y ∈ years)) by done.
    rewrite decide_True by left.
    rewrite app_nil_r. apply filter_all. intros r Hr. by apply Htag.
  - rewrite filter_none by (intros r Hr Hy; apply Htag in Hr; congruence).
    simpl. destruct (decide (y ∈ years)) as [Hy|Hy].
    + rewrite decide_True; [done|by right].
    + rewrite decide_False; [done|].
      intros [?|?]%elem_of_cons; [congruence|done].
Qed.

(** X25. The yearly totals of everything [get_all_fish_landings] loads:
    when every spreadsheet of the range can be read and holds landings of
    its own year, [get_landings_by_year] maps each year of the range within
    1980 to 2002 whose spreadsheet holds a landing to the pounds of that
    spreadsheet, summed, and has no other key. *)
Theorem get_landings_by_year_of_all {E : Type}
    (read_year : Z -> E + list FishLanding) (files : Z -> list FishLanding)
    start_year end_year :
  (∀ y, start_year <= y <= end_year -> has_file y ->
        read_year y = inr (files y)) ->
  (∀ y r, r ∈ files y -> year r = y) ->
  ∃ all_landings,
    get_all_fish_landings read_year start_year end_year = inr all_landings
    ∧ ∀ y, get_landings_by_year all_landings !! y
           = if decide (start_year <= y <= end_year ∧ has_file y)
             then year_total (pounds <$> files y)
             else None.
Proof.
  intros Hread Htag. eexists. split.
  { unfold get_all_fish_landings.
    fold (load_years read_year (seqZ start_year (end_year + 1 - start_year))
            (inr [])).
    rewrite (load_years_concat read_year files), years_with_file; [done|].
    intros y Hy. apply elem_of_seqZ in Hy. apply Hread. lia. }
  intros y. simpl.
  change (get_landings_by_year ?l) with (total_fish_landings_per_year l None).
  rewrite total_fish_landings_per_year_year_total, qualifying_None.
  rewrite landings_in_files by (apply NoDup_seqZ || done).
  destruct (decide (start_year <= y <= end_year ∧ has_file y)) as [Hy|Hy].
  - rewrite decide_True; [done|]. apply elem_of_seqZ.
    unfold has_file in Hy. lia.
  - rewrite decide_False; [done|]. rewrite elem_of_seqZ.
    unfold has_file in Hy. lia.
Qed.

Lemma get_landings_by_year_of_all_witness :
  ∃ all_landings,
    get_all_fish_landings (E := string)
      (fun y => inr [landing "Finfish" y "Anchovy" 100;
                     landing "Finfish" y "Sardine" 50]) 2001 2004
    = inr all_landings
    ∧ ∀ y, get_landings_by_year all_landings !! y
           = if decide (2001 <= y <= 2004 ∧ has_file y)
             then year_total
                    (pounds <$> [landing "Finfish" y "Anchovy" 100;
                                 landing "Finfish" y "Sardine" 50])
             else None.
Proof.
  apply (get_landings_by_year_of_all (E := string)
           (fun y => inr [landing "Finfish" y "Anchovy" 100;
                          landing "Finfish" y "Sardine" 50])
           (fun y => [landing "Finfish" y "Anchovy" 100;
                      landing "Finfish" y "Sardine" 50]) 2001 2004).
  - reflexivity.
  - intros y r Hr.
    repeat (apply elem_of_cons in Hr as [->|Hr]; [reflexivity|]).
    by apply elem_of_nil in Hr.
Defined.

(** ** The summary, field by field *)

Lemma sorted_keys_ascending {V} (m : gmap Z V) :
  StronglySorted Z.lt (Py.sorted (map_to_list m).*1).
Proof.
  apply ascending_of_NoDup.
  - apply StronglySorted_merge_sort; apply _.
  - unfold Py.sorted. rewrite merge_sort_Permutation.
    apply NoDup_fst_map_to_list.
Qed.

Lemma elem_of_sorted_keys {V} (m : gmap Z V) y :
  y ∈ Py.sorted (map_to_list m).*1 ↔ y ∈ dom m.
Proof.
  unfold Py.sorted. rewrite merge_sort_Permutation, elem_of_dom. split.
  - intros Hy. apply list_elem_of_fmap in Hy as ([y' v] & -> & Hy).
    apply elem_of_map_to_list in Hy. by exists v.
  - intros [v Hv]. by apply (key_of_map_to_list _ _ v).
Qed.

Lemma length_sorted (xs : list Z) : length (Py.sorted xs) = length xs.
Proof. unfold Py.sorted. by rewrite merge_sort_Permutation. Qed.

(** X26. The fields of the summary, whenever [get_summary_stats]
    returns.  The two record counts are the lengths of the lists.
    ["common_years"] is the number of years with both a qualifying landing
    and a sample, so it exceeds neither the length of ["fish_years"] nor
    that of ["water_years"].  ["water_years"] lists the years of the
    samples in strictly ascending order.  ["total_fish_category_pounds"]
    is the sum of the pounds of the landings of category Finfish, whatever
    category the summary is asked for.  ["pearson_correlation"] is the
    coefficient of [calc_pearson] rounded to four decimals. *)
Theorem get_summary_stats_fields
    (sum_float : list Py.float -> Py.float) (pow2 : Py.float -> Py.float)
    (round : Py.float -> Z -> Py.float)
    fish_list water_list category s :
  get_summary_stats sum_float pow2 round fish_list water_list category
  = Ok s ->
  total_fish_records s = Z.of_nat (length fish_list)
  ∧ total_water_records s = Z.of_nat (length water_list)
  ∧ common_years s
    = Z.of_nat (size (common_years_of fish_list water_list category))
  ∧ common_years s <= Z.of_nat (length (fish_years s))
  ∧ common_years s <= Z.of_nat (length (water_years s))
  ∧ StronglySorted Z.lt (water_years s)
  ∧ (∀ y, y ∈ water_years s
          ↔ ∃ r, r ∈ water_list ∧ PollutionRecords.year r = y)
  ∧ total_fish_category_pounds s
    = total (pounds <$>
             filter (fun r => FishLandings.category r = "Finfish") fish_list)
  ∧ ∃ r, calc_pearson sum_float pow2 fish_list water_list category
         = Ok (r, common_years s)
         ∧ pearson_correlation s = round r 4.
Proof.
  unfold get_summary_stats.
  destruct (average_oxygen_per_year water_list) as [m|] eqn:Hm; [|done].
  rewrite bind_Ok.
  destruct (calc_pearson _ _ _ _ _) as [[r n]|] eqn:Hr; [|done].
  rewrite bind_Ok. intros [= <-]. simpl.
  destruct (calc_pearson_n _ _ _ _ _ _ _ Hr) as (m' & _ & ->).
  pose proof (average_oxygen_per_year_Ok_dom _ _ Hm) as Hdom.
  split; [done|]. split; [done|]. split; [done|].
  rewrite !length_sorted, !length_fmap, !length_map_to_list.
  rewrite <- (size_dom (D := gset Z) m),
    <- (size_dom (D := gset Z)
          (total_fish_landings_per_year fish_list category)), Hdom.
  split; [|split; [|split; [|split; [|split]]]].
  - apply inj_le, subseteq_size. unfold common_years_of.
    by intros y [? _]%elem_of_intersection.
  - apply inj_le, subseteq_size. unfold common_years_of.
    by intros y [_ ?]%elem_of_intersection.
  - apply sorted_keys_ascending.
  - intros y. rewrite elem_of_sorted_keys, Hdom, elem_of_list_to_set,
      list_elem_of_fmap.
    split; intros (rec & ? & ?); by exists rec.
  - rewrite overall_as_total. f_equal. f_equal.
    apply list_filter_iff. intros x. simpl. split; [|by right].
    by intros [?|?].
  - by exists r.
Qed.

Lemma get_summary_stats_fields_witness :
  ∃ s,
    get_summary_stats Py.sum_float_compensated Py.rounded_square (fun x _ => x)
      sample_fish sample_water (Some "Crustaceans") = Ok s
    ∧ total_fish_category_pounds s
      = total (pounds <$>
               filter (fun r => FishLandings.category r = "Finfish")
                 sample_fish).
Proof.
  eexists. split; [by vm_compute|].
  apply (get_summary_stats_fields Py.sum_float_compensated Py.rounded_square
           (fun x _ => x)
           sample_fish sample_water (Some "Crustaceans")).
  by vm_compute.
Defined.

(** ** The exceptions of the oxygen averages and of the correlation *)

Lemma bind_Raise {A B} (e : exception) (k : A -> result B) :
  (Raise e ≫= k) = Raise e.
Proof. done. Qed.

Lemma mapM_raises {A B} (f : A -> result B) (l : list A) e :
  mapM f l = Raise e -> ∃ x, x ∈ l ∧ f x = Raise e.
Proof.
  induction l as [|x l IH]; simpl; [done|].
  destruct (f x) as [y|e'] eqn:Hx.
  - rewrite bind_Ok. destruct (mapM f l) as [k|e'']; [done|].
    rewrite bind_Raise. intros [= <-].
    destruct IH as (x' & Hx' & H); [done|]. exists x'. split; [by right|done].
  - rewrite bind_Raise. intros [= <-]. exists x. split; [left|done].
Qed.

Lemma float_of_int_raises n e :
  Py.float_of_int n = Raise e ->
  e = OverflowError ∧ Py.overflow_threshold <= Z.abs n.
Proof.
  unfold Py.float_of_int.
  destruct (Z.leb_spec Py.overflow_threshold (Z.abs n)); [|done].
  by intros [= <-].
Qed.

Lemma float_truediv_int_raises t c e :
  0 < c ->
  Py.float_truediv_int t c = Raise e ↔
  e = OverflowError ∧ Py.overflow_threshold <= c.
Proof.
  intros Hc. unfold Py.float_truediv_int, Py.float_of_int.
  rewrite (Z.abs_eq c) by lia.
  destruct (Z.leb_spec Py.overflow_threshold c).
  - rewrite bind_Raise. split; [by intros [= <-]|]. by intros [-> _].
  - rewrite bind_Ok. destruct (Z.eqb_spec c 0); [lia|].
    split; [done|]. intros [_ ?]. lia.
Qed.

Lemma int_sub_float_raises n y e :
  Py.int_sub_float n y = Raise e -> e = OverflowError.
Proof.
  unfold Py.int_sub_float.
  destruct (Py.float_of_int n) as [x|e'] eqn:Hn; [done|].
  rewrite bind_Raise. intros [= <-]. by apply float_of_int_raises in Hn as [-> _].
Qed.

Lemma float_pow2_raises pow2 x e :
  Py.float_pow2 pow2 x = Raise e -> e = OverflowError.
Proof.
  unfold Py.float_pow2. destruct x as [| | |s m ex]; [done..|].
  destruct (Py.feqb _ _); [done|].
  destruct (pow2 _); (done || by intros [= <-]).
Qed.

Lemma math_sqrt_raises x e : Py.math_sqrt x = Raise e -> e = ValueError.
Proof.
  unfold Py.math_sqrt.
  destruct x as [|[]| |[] m ex]; (done || by intros [= <-]).
Qed.

Lemma getindex_lt {A} (xs : list A) i :
  (i < length xs)%nat -> ∃ x, Py.getindex xs i = Ok x.
Proof.
  intros Hi. unfold Py.getindex.
  destruct (lookup_lt_is_Some_2 xs i Hi) as [x ->]. by exists x.
Qed.

Lemma getitem_dom `{Countable K} {V} (d : gmap K V) k :
  k ∈ dom d -> ∃ v, Py.getitem d k = Ok v.
Proof. intros [v Hv]%elem_of_dom. exists v. unfold Py.getitem. by rewrite Hv. Qed.

Lemma mapM_getitem `{Countable K} {V} (d : gmap K V) (keys : list K) :
  (∀ k, k ∈ keys -> k ∈ dom d) ->
  ∃ values, mapM (Py.getitem d) keys = Ok values
            ∧ length values = length keys.
Proof.
  intros Hkeys.
  destruct (mapM_Ok (Py.getitem d) (fun _ _ => True) keys) as (vs & Hvs & Hl).
  - intros k Hk. destruct (getitem_dom d k (Hkeys k Hk)) as [v Hv]. by exists v.
  - exists vs. split; [done|]. symmetry. by eapply Forall2_length.
Qed.

Lemma average_oxygen_raises water_list e :
  average_oxygen_per_year water_list = Raise e
  ↔ e = OverflowError
    ∧ ∃ y, Py.overflow_threshold
           <= Z.of_nat (length (samples_in y water_list)).
Proof.
  rewrite average_oxygen_unfold. unfold quotients.
  set (totals := fold_left _ water_list ∅).
  assert (Hstep : ∀ y, y ∈ (map_to_list totals).*1 ->
    ∃ t, samples_in y water_list ≠ []
         ∧ (Py.getitem totals y ≫= fun t =>
            Py.getitem
              (fold_left
                 (fun counts r => accumulate counts (PollutionRecords.year r) 1)
                 water_list ∅) y
            ≫= fun c => Py.float_truediv_int t c)
           = Py.float_truediv_int t
               (Z.of_nat (length (samples_in y water_list)))).
  { intros y Hy. apply list_elem_of_fmap in Hy as ([y' t] & -> & Hy).
    apply elem_of_map_to_list in Hy. simpl. exists t.
    assert (y' ∈ dom totals) as Hd by (by apply elem_of_dom_2 in Hy).
    apply float_totals_dom in Hd as [Hd|(r & Hr & Hk)];
      [by rewrite dom_empty_L in Hd|].
    assert (r ∈ samples_in y' water_list) as Hin
      by (by apply list_elem_of_filter).
    unfold Py.getitem. rewrite Hy, bind_Ok, counts_lookup.
    fold (samples_in y' water_list).
    destruct (samples_in y' water_list); [by apply elem_of_nil in Hin|].
    by rewrite bind_Ok. }
  split.
  + intros H. apply quotients_of_raises in H as (y & Hy & H).
    destruct (Hstep y Hy) as (t & Hne & Heq). rewrite Heq in H.
    apply float_truediv_int_raises in H as [-> Hle].
    * split; [done|]. by exists y.
    * destruct (samples_in y water_list); [done|]. simpl. lia.
  + intros (-> & y & Hle).
    assert (Hpos : 0 < Z.of_nat (length (samples_in y water_list))).
    { pose proof sys_maxsize_in_range. unfold Py.sys_maxsize in *. lia. }
    assert (Hy : y ∈ (map_to_list totals).*1).
    { destruct (samples_in y water_list) as [|r rs] eqn:E; [simpl in Hpos; lia|].
      assert (r ∈ samples_in y water_list) as Hr by (rewrite E; left).
      apply list_elem_of_filter in Hr as [Hk Hr].
      assert (y ∈ dom totals) as [t Ht]%elem_of_dom
        by (apply float_totals_dom; right; by exists r).
      by apply (key_of_map_to_list _ _ t). }
    destruct (Hstep y Hy) as (t & _ & Heq).
    destruct (quotients_of Py.float_truediv_int totals _ _) as [m|e] eqn:Hq.
    * destruct (quotients_of_returns _ _ _ _ _ _ Hq Hy) as [a Ha].
      rewrite Heq in Ha.
      assert (Py.float_truediv_int t
                (Z.of_nat (length (samples_in y water_list)))
              = Raise OverflowError) as Hr
        by (by apply float_truediv_int_raises).
      congruence.
    * apply quotients_of_raises in Hq as (y' & Hy' & H).
      destruct (Hstep y' Hy') as (t' & Hne & Heq'). rewrite Heq' in H.
      apply float_truediv_int_raises in H as [-> _]; [done|].
      destruct (samples_in y' water_list); [done|]. simpl. lia.
Qed.

(** X27. The only exception of [average_oxygen_per_year] is
    [OverflowError], raised exactly when some year has [2^1024 - 2^970]
    samples or more, a number no Python list reaches; neither [KeyError]
    nor [ZeroDivisionError] can occur.  [get_joined_yearly_data] raises
    exactly when [average_oxygen_per_year] does, and the same exception:
    its own subscripts always find their keys. *)
Theorem average_oxygen_per_year_raises
    (round : Py.float -> Z -> Py.float) fish_list water_list category e :
  (average_oxygen_per_year water_list = Raise e
   ↔ e = OverflowError
     ∧ ∃ y, Py.overflow_threshold
            <= Z.of_nat (length (samples_in y water_list)))
  ∧ (get_joined_yearly_data round fish_list water_list category = Raise e
     ↔ average_oxygen_per_year water_list = Raise e).
Proof.
  split; [apply average_oxygen_raises|].
  destruct (average_oxygen_per_year water_list) as [m|e'] eqn:Hm.
  - destruct (joined_of_averages round fish_list water_list category m Hm)
      as (rows & -> & _). done.
  - unfold get_joined_yearly_data. rewrite Hm, bind_Raise.
    split; by intros [= <-].
Qed.

(** X28. [calc_pearson] raises neither [KeyError] nor [IndexError] nor
    [ZeroDivisionError]: the years it looks up are keys of both series,
    the indices stay within the two lists of values, the number of years
    it divides by is at least 2 and the denominator it divides by has
    been tested.  What it can raise is [OverflowError], from a number
    beyond the range of a [float], and [ValueError], from the square
    root.  The same holds for [get_summary_stats]. *)
Theorem calc_pearson_raises
    (sum_float : list Py.float -> Py.float) (pow2 : Py.float -> Py.float)
    (round : Py.float -> Z -> Py.float)
    fish_list water_list category e :
  (calc_pearson sum_float pow2 fish_list water_list category = Raise e ->
   e = OverflowError ∨ e = ValueError)
  ∧ (get_summary_stats sum_float pow2 round fish_list water_list category
     = Raise e ->
     e = OverflowError ∨ e = ValueError).
Proof.
  assert (Hcalc : calc_pearson sum_float pow2 fish_list water_list category
                  = Raise e
                  -> e = OverflowError ∨ e = ValueError).
  { unfold calc_pearson.
    destruct (average_oxygen_per_year water_list) as [m|e'] eqn:Hm.
    2:{ rewrite bind_Raise. intros [= <-]. left.
        by apply average_oxygen_raises in Hm as [-> _]. }
    rewrite bind_Ok.
    set (fish := total_fish_landings_per_year fish_list category).
    set (years := Py.sorted_set (dom fish ∩ dom m)).
    destruct (Z.ltb_spec (Z.of_nat (length years)) 2) as [|Hn]; [done|].
    destruct (mapM_getitem fish years) as (fish_values & -> & Hlf).
    { intros y Hy. by apply elem_of_sorted_set, elem_of_intersection in Hy as [? _]. }
    destruct (mapM_getitem m years) as (oxygen_values & -> & Hlo).
    { intros y Hy. by apply elem_of_sorted_set, elem_of_intersection in Hy as [_ ?]. }
    rewrite !bind_Ok.
    destruct (Py.int_truediv _ _) as [fish_mean|e'] eqn:Hfm.
    2:{ rewrite bind_Raise. intros [= <-]. left.
        apply int_truediv_raises in Hfm as [[? _]|(_ & _ & ->)]; [lia|done]. }
    rewrite bind_Ok.
    destruct (Py.float_truediv_int _ _) as [oxygen_mean|e'] eqn:Hom.
    2:{ rewrite bind_Raise. intros [= <-]. left.
        by apply float_truediv_int_raises in Hom as [-> _]; [|lia]. }
    rewrite bind_Ok.
    destruct (mapM _ (seq 0 (length years))) as [products|e'] eqn:Hp.
    2:{ rewrite bind_Raise. intros [= <-]. left.
        apply mapM_raises in Hp as (i & Hi & Hp).
        apply elem_of_seq in Hi.
        destruct (getindex_lt fish_values i) as [f Hf]; [lia|].
        destruct (getindex_lt oxygen_values i) as [o Ho]; [lia|].
        rewrite Hf, bind_Ok, Ho, bind_Ok in Hp.
        destruct (Py.int_sub_float f fish_mean) as [d|e''] eqn:Hd; [done|].
        rewrite bind_Raise in Hp. injection Hp as <-.
        by apply int_sub_float_raises in Hd. }
    rewrite bind_Ok.
    destruct (mapM _ fish_values) as [fish_squares|e'] eqn:Hfs.
    2:{ rewrite bind_Raise. intros [= <-]. left.
        apply mapM_raises in Hfs as (x & _ & Hx).
        destruct (Py.int_sub_float x fish_mean) as [d|e''] eqn:Hd.
        - rewrite bind_Ok in Hx. by apply float_pow2_raises in Hx.
        - rewrite bind_Raise in Hx. injection Hx as <-.
          by apply int_sub_float_raises in Hd. }
    rewrite bind_Ok.
    destruct (mapM _ oxygen_values) as [oxygen_squares|e'] eqn:Hos.
    2:{ rewrite bind_Raise. intros [= <-]. left.
        apply mapM_raises in Hos as (x & _ & Hx).
        by apply float_pow2_raises in Hx. }
    rewrite bind_Ok.
    destruct (Py.math_sqrt _) as [denominator|e'] eqn:Hs.
    2:{ rewrite bind_Raise. intros [= <-]. right.
        by apply math_sqrt_raises in Hs. }
    rewrite bind_Ok.
    destruct (Py.feqb denominator Py.fzero) eqn:Hz; [done|].
    unfold Py.float_truediv. by rewrite Hz, bind_Ok. }
  split; [done|].
  unfold get_summary_stats.
  destruct (average_oxygen_per_year water_list) as [m|e'] eqn:Hm.
  2:{ rewrite bind_Raise. intros [= <-]. left.
      by apply average_oxygen_raises in Hm as [-> _]. }
  rewrite bind_Ok.
  destruct (calc_pearson _ _ _ _ _) as [[r n]|e'] eqn:Hr; [done|].
  rewrite bind_Raise. intros [= <-]. by apply Hcalc.
Qed.

Lemma calc_pearson_raises_witness :
  ∃ e,
    calc_pearson Py.sum_float_compensated Py.rounded_square
      [landing "Finfish" 2000 "Anchovy" (2 ^ 1024);
       landing "Finfish" 2001 "Anchovy" 1]
      [sample "S1" "2000-06-01 00:00:00" (Py.nearest 6) 2000;
       sample "S1" "2001-06-01 00:00:00" (Py.nearest 5) 2001] None = Raise e
    ∧ (e = OverflowError ∨ e = ValueError).
Proof.
  exists OverflowError. split; [by vm_compute|].
  apply (proj1 (calc_pearson_raises Py.sum_float_compensated
                  Py.rounded_square (fun x _ => x)
                  [landing "Finfish" 2000 "Anchovy" (2 ^ 1024);
                   landing "Finfish" 2001 "Anchovy" 1]
                  [sample "S1" "2000-06-01 00:00:00" (Py.nearest 6) 2000;
                   sample "S1" "2001-06-01 00:00:00" (Py.nearest 5) 2001]
                  None OverflowError)).
  by vm_compute.
Defined.

(** ** The sign of a percentage *)

Lemma binary_round_aux_sign sx mx ex lx :
  has_sign sx (binary_round_aux Py.prec Py.emax sx mx ex lx).
Proof.
  unfold binary_round_aux.
  destruct (shr_fexp _ _ _ _ _) as [mrs' e'].
  destruct (shr_fexp _ _ _ _ _) as [mrs'' e''].
  destruct (shr_m mrs''); [done| |done].
  by destruct (_ <=? _).
Qed.

Lemma exact_has_sign z : z ≠ 0 -> has_sign (z <? 0) (Py.exact z).
Proof. by destruct z. Qed.

Lemma SFdiv_sign sx sy x y :
  has_sign sx x -> has_sign sy y ->
  has_sign (xorb sx sy) (SFdiv Py.prec Py.emax x y).
Proof.
  destruct x as [sx'|sx'| |sx' mx ex], y as [sy'|sy'| |sy' my ey]; simpl;
    try done; try (by intros -> ->).
  intros -> ->. destruct (SFdiv_core_binary _ _ _ _ _ _) as [[mz ez] lz].
  apply binary_round_aux_sign.
Qed.

Lemma SFmul_sign sx sy x y :
  has_sign sx x -> has_sign sy y ->
  has_sign (xorb sx sy) (SFmul Py.prec Py.emax x y).
Proof.
  destruct x as [sx'|sx'| |sx' mx ex], y as [sy'|sy'| |sy' my ey]; simpl;
    try done; try (by intros -> ->).
  intros -> ->. apply binary_round_aux_sign.
Qed.

Lemma has_sign_below_zero s f :
  has_sign s f -> SFltb f Py.fzero = true -> s = true.
Proof.
  destruct f as [[]|[]| |[] m e]; simpl; intros Hs Hlt;
    (done || by rewrite <- Hs).
Qed.

Lemma has_sign_above_zero s f :
  has_sign s f -> SFltb Py.fzero f = true -> s = false.
Proof.
  destruct f as [[]|[]| |[] m e]; simpl; intros Hs Hlt;
    (done || by rewrite <- Hs).
Qed.

Lemma pct_change_sign a b p :
  pct_change a b = Ok (Some p) ->
  0 < a
  ∧ has_sign (b - a <? 0) p
  ∧ (SFltb p Py.fzero = true -> b < a)
  ∧ (SFltb Py.fzero p = true -> a < b).
Proof.
  unfold pct_change. destruct (Z.ltb_spec 0 a) as [Ha|Ha]; [|done].
  unfold Py.int_truediv. destruct (Z.eqb_spec a 0); [lia|].
  destruct (_ <=? _); [done|]. rewrite bind_Ok. unfold Py.float_mul_int.
  rewrite float_of_int_100, !bind_Ok. intros [= <-]. split; [done|].
  assert (Hq : has_sign (b - a <? 0)
                 (SFdiv Py.prec Py.emax (Py.exact (b - a)) (Py.exact a))).
  { destruct (decide (b - a = 0)) as [->|Hne].
    - by destruct a.
    - rewrite <- (xorb_false_r (b - a <? 0)).
      apply SFdiv_sign; [by apply exact_has_sign|]. by destruct a. }
  assert (Hp : has_sign (b - a <? 0)
                 (Py.fmul
                    (SFdiv Py.prec Py.emax (Py.exact (b - a)) (Py.exact a))
                    (Py.nearest 100))).
  { rewrite <- (xorb_false_r (b - a <? 0)). by apply SFmul_sign. }
  split; [done|]. split.
  - intros Hlt. apply (has_sign_below_zero _ _ Hp) in Hlt.
    apply Z.ltb_lt in Hlt. lia.
  - intros Hgt. destruct (decide (b - a = 0)) as [Hz|Hne].
    + rewrite Hz in Hgt. by destruct a.
    + apply (has_sign_above_zero _ _ Hp) in Hgt.
      apply Z.ltb_ge in Hgt. lia.
Qed.

(** X29. A percentage never has the wrong sign.  When
    [compare_total_landings_between_years] returns a percentage, the first
    total is positive; a percentage below 0 comes with a negative change
    and a percentage above 0 with a positive change.  The same holds for
    every entry of ["species_changes"] that
    [compare_species_between_years] returns. *)
Theorem percent_change_sign :
  (∀ fish_list year1 year2 category c p,
     compare_total_landings_between_years fish_list year1 year2 category = Ok c ->
     Totals.percent_change c = Some p ->
     0 < Totals.year1_total c
     ∧ (SFltb p Py.fzero = true -> Totals.change c < 0)
     ∧ (SFltb Py.fzero p = true -> 0 < Totals.change c))
  ∧ (∀ fish_list year1 year2 c s e p,
       compare_species_between_years fish_list year1 year2 = Ok c ->
       Species.species_changes c !! s = Some e ->
       Species.percent_change e = Some p ->
       0 < Species.year1_pounds e
       ∧ (SFltb p Py.fzero = true -> Species.change e < 0)
       ∧ (SFltb Py.fzero p = true -> 0 < Species.change e)).
Proof.
  split.
  - intros fish_list year1 year2 category c p.
    unfold compare_total_landings_between_years.
    destruct (pct_change _ _) as [[q|]|] eqn:Hq; [|by intros [= <-]|done].
    rewrite bind_Ok. intros [= <-] [= <-]. simpl.
    apply pct_change_sign in Hq as (Hpos & _ & Hlt & Hgt).
    split; [done|]. split; intros H; [apply Hlt in H|apply Hgt in H]; lia.
  - intros fish_list year1 year2 c s e p Hc He Hp.
    destruct (compare_species_unfold _ _ _ _ Hc) as (_ & _ & Hentries).
    specialize (Hentries s e He). revert Hentries. unfold species_change.
    destruct (pct_change _ _) as [[q|]|] eqn:Hq; [| |done].
    + rewrite bind_Ok. intros [= <-]. simpl in *. injection Hp as ->.
      apply pct_change_sign in Hq as (Hpos & _ & Hlt & Hgt).
      split; [done|]. split; intros H; [apply Hlt in H|apply Hgt in H]; lia.
    + rewrite bind_Ok. intros [= <-]. done.
Qed.

Lemma percent_change_sign_witness :
  compare_total_landings_between_years sample_fish 2001 2002 None
  = Ok {| Totals.year1 := 2001;
          Totals.year2 := 2002;
          Totals.year1_total := 700;
          Totals.year2_total := 400;
          Totals.change := -300;
          Totals.percent_change :=
            Some (S754_finite true 6031606643799771 (-47)) |}
  ∧ -300 < 0.
Proof.
  split; [by vm_compute|].
  apply (proj1 percent_change_sign sample_fish 2001 2002 None
           {| Totals.year1 := 2001;
              Totals.year2 := 2002;
              Totals.year1_total := 700;
              Totals.year2_total := 400;
              Totals.change := -300;
              Totals.percent_change :=
                Some (S754_finite true 6031606643799771 (-47)) |}
           (S754_finite true 6031606643799771 (-47)));
    by vm_compute.
Defined.
